(** * Lattice / loom-data client library: validated builders and API wrappers

    A shallow embedding of the model classes (Role, RoleBuilder, AccessCheck,
    AccessCheckBuilder) and of the REST wrapper modules (LinkingApi, DataApi,
    DataIntegrationApi, EntityDataModelApi), followed by the properties
    established for them. *)

From Stdlib Require Import ZArith Ascii.
From stdpp Require Import base strings list gmap.

(** ** JavaScript values *)

(** The plain data a caller can hand to the library.  [JsNumber] stands for an
    integral number: only its being zero or not is ever observed.  An object is
    the list of its own properties in insertion order. *)
#[local] Set Warnings "-register-all".
Inductive JsValue : Type :=
| JsUndefined
| JsNull
| JsBool (b : bool)
| JsNumber (n : Z)
| JsString (s : string)
| JsArray (elems : list JsValue)
| JsObject (props : list (string * JsValue)).

(** Structural equality is decidable.  On the primitive values it is the
    equality [Immutable.is] uses for the elements of a Set. *)
Fixpoint JsValue_eq_dec (a c : JsValue) {struct a} : {a = c} + {a <> c}.
Proof.
  decide equality.
  - apply Bool.bool_dec.
  - apply Z.eq_dec.
  - apply String.string_dec.
  - apply (List.list_eq_dec JsValue_eq_dec).
  - apply List.list_eq_dec. decide equality. apply String.string_dec.
Defined.

#[global] Instance JsValue_EqDecision : EqDecision JsValue := JsValue_eq_dec.

(** [!v]: the values JavaScript treats as false in a condition are
    [undefined], [null], [false], [0] and the empty string. *)
Definition truthy (v : JsValue) : bool :=
  match v with
  | JsUndefined | JsNull => false
  | JsBool b => b
  | JsNumber n => negb (n =? 0)%Z
  | JsString EmptyString => false
  | JsString (String _ _) => true
  | JsArray _ | JsObject _ => true
  end.

(** Property read [o.k]: the value of the own property [k], [undefined] when
    [o] has no such property or is not an object. *)
Fixpoint assoc_get (k : string) (ps : list (string * JsValue)) : option JsValue :=
  match ps with
  | [] => None
  | (k', v) :: rest => if String.eqb k k' then Some v else assoc_get k rest
  end.

Definition get_prop (o : JsValue) (k : string) : JsValue :=
  match o with
  | JsObject ps =>
      match assoc_get k ps with
      | Some v => v
      | None => JsUndefined
      end
  | _ => JsUndefined
  end.

(** [has_prop o k]: [o] is an object with an own property [k]. *)
Definition has_prop (o : JsValue) (k : string) : bool :=
  match o with
  | JsObject ps => bool_decide (is_Some (assoc_get k ps))
  | _ => false
  end.

(** ** lodash predicates *)

Module lodash.

Definition isUndefined (v : JsValue) : bool :=
  match v with JsUndefined => true | _ => false end.

Definition isNull (v : JsValue) : bool :=
  match v with JsNull => true | _ => false end.

Definition isNil (v : JsValue) : bool := isUndefined v || isNull v.

Definition isString (v : JsValue) : bool :=
  match v with JsString _ => true | _ => false end.

Definition isArray (v : JsValue) : bool :=
  match v with JsArray _ => true | _ => false end.

Definition isPlainObject (v : JsValue) : bool :=
  match v with JsObject _ => true | _ => false end.

(** [_.isEmpty]: strings and arrays are empty when their length is zero, an
    object when it has no own property; every other value counts as empty. *)
Definition isEmpty (v : JsValue) : bool :=
  match v with
  | JsString EmptyString => true
  | JsString (String _ _) => false
  | JsArray [] => true
  | JsArray (_ :: _) => false
  | JsObject [] => true
  | JsObject (_ :: _) => false
  | JsUndefined | JsNull | JsBool _ | JsNumber _ => true
  end.

End lodash.

(** ** utils/LangUtils *)

Module LangUtils.

(** White space, as [trim] removes it from the ends of a string.  A string is
    held as the bytes of its UTF-8 form: the white space of ASCII (tab, line
    feed, vertical tab, form feed, carriage return, space) takes one byte, the
    no-break space two, the other spaces and separators of Unicode three. *)
Definition isWhitespace1 (c : ascii) : bool :=
  let n := N_of_ascii c in
  ((9 <=? n) && (n <=? 13) || (n =? 32))%N.

Definition isWhitespace2 (c1 c2 : ascii) : bool :=
  (* U+00A0 *)
  ((N_of_ascii c1 =? 194) && (N_of_ascii c2 =? 160))%N.

Definition isWhitespace3 (c1 c2 c3 : ascii) : bool :=
  let n1 := N_of_ascii c1 in
  let n2 := N_of_ascii c2 in
  let n3 := N_of_ascii c3 in
  ((* U+1680 *)
   (n1 =? 225) && (n2 =? 154) && (n3 =? 128)
   (* U+2000 to U+200A, U+2028, U+2029, U+202F *)
   || (n1 =? 226) && (n2 =? 128)
      && ((128 <=? n3) && (n3 <=? 138) || (n3 =? 168) || (n3 =? 169) || (n3 =? 175))
   (* U+205F *)
   || (n1 =? 226) && (n2 =? 129) && (n3 =? 159)
   (* U+3000 *)
   || (n1 =? 227) && (n2 =? 128) && (n3 =? 128)
   (* U+FEFF *)
   || (n1 =? 239) && (n2 =? 187) && (n3 =? 191))%N.

(** A string is blank when it is white space throughout: nothing is left of it
    once it is trimmed.  The empty string is blank. *)
Fixpoint isBlank (s : string) : bool :=
  match s with
  | EmptyString => true
  | String c1 s1 =>
      if isWhitespace1 c1 then isBlank s1
      else
        match s1 with
        | EmptyString => false
        | String c2 s2 =>
            if isWhitespace2 c1 c2 then isBlank s2
            else
              match s2 with
              | EmptyString => false
              | String c3 s3 => isWhitespace3 c1 c2 c3 && isBlank s3
              end
        end
  end.

(** Modelled from the spec: utils/LangUtils.js is not among the sources; a
    non-empty string is a string with something other than white space in it,
    so that a blank title or description is turned down like an empty one.
    (The helper of the same name that utils/Logger.js keeps to itself does not
    trim: see [Logger.isNonEmptyString].) *)
Definition isNonEmptyString (value : JsValue) : bool :=
  match value with
  | JsString s => negb (isBlank s)
  | _ => false
  end.

(** Modelled from the spec: utils/LangUtils.js is not among the sources; a
    value is defined when it is neither [null] nor [undefined]. *)
Definition isDefined (value : JsValue) : bool :=
  negb (lodash.isNull value) && negb (lodash.isUndefined value).

(** Modelled from the spec: utils/LangUtils.js is not among the sources; the
    string of length zero. *)
Definition isEmptyString (value : JsValue) : bool :=
  lodash.isString value && lodash.isEmpty value.

(** Modelled from the spec: utils/LangUtils.js is not among the sources; the
    array of length zero. *)
Definition isEmptyArray (value : JsValue) : bool :=
  lodash.isArray value && lodash.isEmpty value.

(** Modelled from the spec: utils/LangUtils.js is not among the sources; an
    array with at least one element. *)
Definition isNonEmptyArray (value : JsValue) : bool :=
  lodash.isArray value && negb (lodash.isEmpty value).

(** Modelled from the spec: utils/LangUtils.js is not among the sources; an
    object literal with at least one property. *)
Definition isNonEmptyObject (value : JsValue) : bool :=
  lodash.isPlainObject value && negb (lodash.isEmpty value).

End LangUtils.

(** ** Strings of the error messages *)

(** The double-quote character and a property name between double quotes, as
    the messages print it. *)
Definition dquote : string :=
  String (Ascii false true false false false true false false) EmptyString.

Definition quoted (name : string) : string := dquote +:+ name +:+ dquote.

(** ** Completions and method bodies *)

(** [new Error(message)], and the TypeError the engine raises when a value
    that is not a function is called. *)
Inductive JsError : Type :=
| Error (message : string)
| TypeError (message : string).

(** How an invocation ends: with a value, or by throwing. *)
Inductive completion (A : Type) : Type :=
| Normal (a : A)
| Throw (e : JsError).
Arguments Normal {A} a.
Arguments Throw {A} e.

(** A method body run on a receiver whose fields have type [S]: it ends with a
    completion and leaves the receiver in a state; a [throw] leaves the
    receiver as the assignments made before it left it. *)
Definition method (S A : Type) : Type := S -> completion A * S.

Definition ret {S A : Type} (a : A) : method S A :=
  fun this => (Normal a, this).

Definition throw {S A : Type} (e : JsError) : method S A :=
  fun this => (Throw e, this).

Definition bind {S A B : Type} (m : method S A) (k : A -> method S B) : method S B :=
  fun this =>
    match m this with
    | (Normal a, this') => k a this'
    | (Throw e, this') => (Throw e, this')
    end.

(** [this], read as a whole, and an assignment to some of its fields. *)
Definition get_this {S : Type} : method S S :=
  fun this => (Normal this, this).

Definition assign {S : Type} (f : S -> S) : method S unit :=
  fun this => (Normal tt, f this).

Declare Scope method_scope.
Delimit Scope method_scope with method.
Notation "x <- m ;; k" := (bind m (fun x => k))
  (at level 100, m at next level, right associativity) : method_scope.
Notation "m ;; k" := (bind m (fun _ => k))
  (at level 100, right associativity) : method_scope.

(** ** Modules the model classes import *)

(** utils/ValidationUtils is not among the sources: [isValidUUID] (spelled
    [isValidUuid] by some callers, and imported from utils/LangUtils by
    EntityDataModelApi) is a parameter of the development. *)
Class UUIDValidator : Type := {
  isValidUUID : JsValue -> bool;
}.

(** Every value [isValidUUID] accepts is true in a condition (a UUID is a
    non-empty string). *)
Definition UUIDs_truthy `{UUIDValidator} : Prop :=
  forall v, isValidUUID v = true -> truthy v = true.

(** constants/types/PermissionTypes is not among the sources: the names of the
    members of the Permission enumeration are a parameter. *)
Class PermissionTypesModule : Type := {
  PermissionTypes : list string;
}.

Module ValidationUtils.
Section ValidationUtils.
Context `{UUIDValidator} `{PermissionTypesModule}.

(** Modelled from the spec: utils/ValidationUtils.js is not among the sources;
    as the message of its callers says, a non-empty array of valid UUIDs. *)
Definition isValidUuidArray (value : JsValue) : bool :=
  match value with
  | JsArray (x :: xs) => forallb isValidUUID (x :: xs)
  | _ => false
  end.

(** Modelled from the spec: utils/ValidationUtils.js is not among the sources;
    a valid Permission is the name of a member of the Permission
    enumeration. *)
Definition isValidPermission (value : JsValue) : bool :=
  match value with
  | JsString s => bool_decide (s ∈ PermissionTypes)
  | _ => false
  end.

(** Modelled from the spec: utils/ValidationUtils.js is not among the sources;
    as the message of its caller says, a non-empty array of valid
    Permissions. *)
Definition isValidPermissionArray (value : JsValue) : bool :=
  match value with
  | JsArray (x :: xs) => forallb isValidPermission (x :: xs)
  | _ => false
  end.

End ValidationUtils.
End ValidationUtils.

(** models/Principal is not among the sources: the instances of [Principal],
    the outcome of [(new PrincipalBuilder(value)).build()] and
    [Principal.toObject] are parameters. *)
Class PrincipalModule : Type := {
  Principal : Type;
  PrincipalBuilder_build : JsValue -> completion Principal;
  Principal_toObject : Principal -> JsValue;
}.

(** Rebuilding a Principal a PrincipalBuilder built, from its serialized
    form, succeeds and serializes to the same object. *)
Definition Principal_round_trip `{PrincipalModule} : Prop :=
  forall (value : JsValue) (p : Principal),
    PrincipalBuilder_build value = Normal p ->
    exists p', PrincipalBuilder_build (Principal_toObject p) = Normal p'
               /\ Principal_toObject p' = Principal_toObject p.

(** constants/GlobalConstants is not among the sources: the property key
    [AT_CLASS] is a parameter. *)
Class GlobalConstants : Type := {
  AT_CLASS : string;
}.

(** The property names of a Role and of its serialized form, [AT_CLASS]
    apart. *)
Definition role_property_names : list string :=
  ["organizationId"; "principal"; "title"; "description"; "aclKey"; "id"].

(** [AT_CLASS] is none of them. *)
Definition AT_CLASS_apart `{GlobalConstants} : Prop :=
  AT_CLASS ∉ role_property_names.

(** Property assignment [o[k] = v] on the property list of an object: an
    existing property keeps its place, a new one goes last. *)
Fixpoint assoc_set (k : string) (v : JsValue) (ps : list (string * JsValue))
  : list (string * JsValue) :=
  match ps with
  | [] => [(k, v)]
  | (k', v') :: rest =>
      if String.eqb k k' then (k', v) :: rest else (k', v') :: assoc_set k v rest
  end.

(** ** models/Role : class Role *)

Module Role.
Section Role.
Context `{PrincipalModule} `{GlobalConstants}.

Definition ROLE_CLASS_PACKAGE : string := "com.openlattice.organization.roles.Role".

(** The fields of an instance, as the class declares them.  Each of them is
    an own property of every instance from the start: one the constructor
    does not assign holds [undefined].  The property [AT_CLASS] always holds
    [ROLE_CLASS_PACKAGE] and is left out. *)
Record Role : Type := {
  aclKey : JsValue;
  description : JsValue;
  id : JsValue;
  organizationId : JsValue;
  principal : Principal;
  title : JsValue;
}.

(** The names of the own properties of an instance: the declared fields, then
    the key the constructor adds. *)
Definition own_property_names : list string :=
  ["aclKey"; "description"; "id"; "organizationId"; "principal"; "title"; AT_CLASS].

(** [k in this], for an instance [this]. *)
Definition has_own_property (this : Role) (k : string) : bool :=
  bool_decide (k ∈ own_property_names).

Definition constructor (role_description role_id role_organizationId : JsValue)
  (role_principal : Principal) (role_title : JsValue) : Role :=
  {| (* required properties *)
     organizationId := role_organizationId;
     principal := role_principal;
     title := role_title;
     (* optional properties *)
     description :=
       if LangUtils.isDefined role_description then role_description else JsUndefined;
     aclKey :=
       if LangUtils.isDefined role_id
       then JsArray [role_organizationId; role_id] else JsUndefined;
     id :=
       if LangUtils.isDefined role_id then role_id else JsUndefined |}.

Definition toObject (this : Role) : JsValue :=
  (* required properties *)
  let roleObj :=
    [("organizationId", organizationId this);
     ("principal", Principal_toObject (principal this));
     ("title", title this)] in
  let roleObj := assoc_set AT_CLASS (JsString ROLE_CLASS_PACKAGE) roleObj in
  (* optional properties *)
  let roleObj :=
    if LangUtils.isDefined (description this)
    then assoc_set "description" (description this) roleObj
    else roleObj in
  let roleObj :=
    if LangUtils.isDefined (id this)
    then assoc_set "id" (id this)
           (assoc_set "aclKey" (JsArray [organizationId this; id this]) roleObj)
    else roleObj in
  JsObject roleObj.

End Role.
End Role.

(** ** models/Role : class RoleBuilder *)

Module RoleBuilder.
Section RoleBuilder.
Context `{UUIDValidator} `{PrincipalModule} `{GlobalConstants}.

Local Open Scope method_scope.

(** The fields of a builder; a field no setter has assigned reads
    [undefined] ([None] for the principal, which otherwise holds an instance
    of [Principal]). *)
Record RoleBuilder : Type := {
  description : JsValue;
  id : JsValue;
  organizationId : JsValue;
  principal : option Principal;
  title : JsValue;
}.

Definition set_description (v : JsValue) (this : RoleBuilder) : RoleBuilder :=
  {| description := v; id := id this; organizationId := organizationId this;
     principal := principal this; title := title this |}.

Definition set_id (v : JsValue) (this : RoleBuilder) : RoleBuilder :=
  {| description := description this; id := v; organizationId := organizationId this;
     principal := principal this; title := title this |}.

Definition set_organizationId (v : JsValue) (this : RoleBuilder) : RoleBuilder :=
  {| description := description this; id := id this; organizationId := v;
     principal := principal this; title := title this |}.

Definition set_principal (p : Principal) (this : RoleBuilder) : RoleBuilder :=
  {| description := description this; id := id this; organizationId := organizationId this;
     principal := Some p; title := title this |}.

Definition set_title (v : JsValue) (this : RoleBuilder) : RoleBuilder :=
  {| description := description this; id := id this; organizationId := organizationId this;
     principal := principal this; title := v |}.

Definition invalid_description : string :=
  "invalid parameter: " +:+ quoted "description" +:+ " must be a non-empty string".
Definition invalid_id : string :=
  "invalid parameter: " +:+ quoted "id" +:+ " must be a valid UUID".
Definition invalid_organizationId : string :=
  "invalid parameter: " +:+ quoted "organizationId" +:+ " must be a valid UUID".
Definition invalid_title : string :=
  "invalid parameter: " +:+ quoted "title" +:+ " must be a non-empty string".
Definition missing_property (name : string) : string :=
  "missing property: " +:+ quoted name +:+ " is a required property".

(** Each setter ends with [return this]: the model returns no value and the
    next call of a chain runs on the state the setter leaves. *)
Definition setDescription (description : JsValue) : method RoleBuilder unit :=
  if negb (LangUtils.isDefined description) || LangUtils.isEmptyString description
  then ret tt
  else if negb (LangUtils.isNonEmptyString description)
  then throw (Error invalid_description)
  else assign (set_description description).

Definition setId (id : JsValue) : method RoleBuilder unit :=
  if negb (LangUtils.isDefined id) || LangUtils.isEmptyString id
  then ret tt
  else if negb (isValidUUID id)
  then throw (Error invalid_id)
  else assign (set_id id).

Definition setOrganizationId (organizationId : JsValue) : method RoleBuilder unit :=
  if negb (isValidUUID organizationId)
  then throw (Error invalid_organizationId)
  else assign (set_organizationId organizationId).

(** [this.principal = (new PrincipalBuilder(principal)).build()]; an instance
    of Principal given as argument is seen through its properties. *)
Definition setPrincipal (principal : JsValue) : method RoleBuilder unit :=
  match PrincipalBuilder_build principal with
  | Normal p => assign (set_principal p)
  | Throw e => throw e
  end.

Definition setTitle (title : JsValue) : method RoleBuilder unit :=
  if negb (LangUtils.isNonEmptyString title)
  then throw (Error invalid_title)
  else assign (set_title title).

Definition build : method RoleBuilder Role.Role :=
  this <- get_this ;;
  if negb (truthy (organizationId this))
  then throw (Error (missing_property "organizationId"))
  else
    match principal this with
    | None => throw (Error (missing_property "principal"))
    | Some this_principal =>
        if negb (truthy (title this))
        then throw (Error (missing_property "title"))
        else ret (Role.constructor (description this) (id this)
                    (organizationId this) this_principal (title this))
    end.

(** [new RoleBuilder()]: no field assigned. *)
Definition empty : RoleBuilder :=
  {| description := JsUndefined; id := JsUndefined; organizationId := JsUndefined;
     principal := None; title := JsUndefined |}.

(** [new RoleBuilder(value)]: the constructor throws what a setter throws.
    [JsValue] holds no Immutable.js collection, so that [isImmutable(value)]
    is false and the first branch, which makes the same five calls on
    [value.get(...)], is not taken. *)
Definition constructor (value : JsValue) : completion RoleBuilder :=
  let init : method RoleBuilder unit :=
    if LangUtils.isDefined value then
      setDescription (get_prop value "description") ;;
      setId (get_prop value "id") ;;
      setOrganizationId (get_prop value "organizationId") ;;
      setPrincipal (get_prop value "principal") ;;
      setTitle (get_prop value "title")
    else ret tt in
  match init empty with
  | (Normal _, this) => Normal this
  | (Throw e, _) => Throw e
  end.

(** The arguments on which [setDescription] and [setId] throw. *)
Definition description_rejected (v : JsValue) : bool :=
  LangUtils.isDefined v && negb (LangUtils.isEmptyString v)
  && negb (LangUtils.isNonEmptyString v).

Definition id_rejected (v : JsValue) : bool :=
  LangUtils.isDefined v && negb (LangUtils.isEmptyString v) && negb (isValidUUID v).

(** *** The states a builder can be in *)

(** The calls the class offers on a builder. *)
Inductive call : Type :=
| SetDescription (v : JsValue)
| SetId (v : JsValue)
| SetOrganizationId (v : JsValue)
| SetPrincipal (v : JsValue)
| SetTitle (v : JsValue)
| Build.

Definition after (c : call) (this : RoleBuilder) : RoleBuilder :=
  match c with
  | SetDescription v => (setDescription v this).2
  | SetId v => (setId v this).2
  | SetOrganizationId v => (setOrganizationId v this).2
  | SetPrincipal v => (setPrincipal v this).2
  | SetTitle v => (setTitle v this).2
  | Build => (build this).2
  end.

(** The field a call assigns, when it assigns one. *)
Definition field (c : call) : option string :=
  match c with
  | SetDescription _ => Some "description"
  | SetId _ => Some "id"
  | SetOrganizationId _ => Some "organizationId"
  | SetPrincipal _ => Some "principal"
  | SetTitle _ => Some "title"
  | Build => None
  end.

(** A builder is reachable when it is a fresh one on which calls were made,
    whether they returned or threw. *)
Inductive reachable : RoleBuilder -> Prop :=
| reachable_new : reachable empty
| reachable_call (c : call) (this : RoleBuilder) :
    reachable this -> reachable (after c this).

(** What the setters maintain: an assigned field passed its setter's test,
    and the principal was built by a PrincipalBuilder. *)
Definition validated (this : RoleBuilder) : Prop :=
  (description this = JsUndefined \/ LangUtils.isNonEmptyString (description this) = true)
  /\ (id this = JsUndefined \/
      (LangUtils.isDefined (id this) = true /\ LangUtils.isEmptyString (id this) = false
       /\ isValidUUID (id this) = true))
  /\ (organizationId this = JsUndefined \/ isValidUUID (organizationId this) = true)
  /\ (title this = JsUndefined \/ LangUtils.isNonEmptyString (title this) = true)
  /\ (forall p, principal this = Some p -> exists value, PrincipalBuilder_build value = Normal p).

(** The properties [build] requires, and what it is for one of them not to
    have been set. *)
Inductive required : Type := OrganizationId | PrincipalProperty | Title.

Definition required_name (property : required) : string :=
  match property with
  | OrganizationId => "organizationId"
  | PrincipalProperty => "principal"
  | Title => "title"
  end.

Definition unset (property : required) (this : RoleBuilder) : Prop :=
  match property with
  | OrganizationId => organizationId this = JsUndefined
  | PrincipalProperty => principal this = None
  | Title => title this = JsUndefined
  end.

End RoleBuilder.
End RoleBuilder.

(** ** Immutable.Set *)

(** A Set of Immutable.js holding a handful of values, as the list of its
    elements in the order of their first insertion.  Elements are compared
    with [Immutable.is]: by value on strings and the other primitives (the
    model compares arrays and objects by their contents). *)
Module ImmutableSet.

Definition t : Type := list JsValue.

(** [Immutable.Set()] *)
Definition empty : t := [].

(** [set.add(value)] *)
Definition add (value : JsValue) (set : t) : t :=
  if decide (value ∈ set) then set else set ++ [value].

(** [Immutable.Set().withMutations((set) => { values.forEach((value) => { set.add(value); }); })] *)
Definition withMutations_forEach_add (values : list JsValue) : t :=
  foldl (fun set value => add value set) empty values.

(** [set.toJS()] *)
Definition toJS (set : t) : JsValue := JsArray set.

End ImmutableSet.

(** ** models/AccessCheck : class AccessCheck *)

Module AccessCheck.

Record AccessCheck : Type := {
  aclKey : JsValue;
  permissions : JsValue;
}.

Definition constructor (aclKey permissions : JsValue) : AccessCheck :=
  {| aclKey := aclKey; permissions := permissions |}.

End AccessCheck.

(** ** models/AccessCheck : class AccessCheckBuilder *)

Module AccessCheckBuilder.
Section AccessCheckBuilder.
Context `{UUIDValidator} `{PermissionTypesModule}.

Local Open Scope method_scope.

(** A field no call has assigned reads [undefined]. *)
Record AccessCheckBuilder : Type := {
  aclKey : JsValue;
  permissions : JsValue;
}.

Definition set_aclKey (v : JsValue) (this : AccessCheckBuilder) : AccessCheckBuilder :=
  {| aclKey := v; permissions := permissions this |}.

Definition set_permissions (v : JsValue) (this : AccessCheckBuilder) : AccessCheckBuilder :=
  {| aclKey := aclKey this; permissions := v |}.

Definition invalid_aclKey : string :=
  "invalid parameter: aclKey must be a non-empty array of valid UUIDs".
Definition invalid_permissions : string :=
  "invalid parameter: permissions must be a non-empty array of valid Permissions".

Definition setAclKey (aclKey : JsValue) : method AccessCheckBuilder unit :=
  if lodash.isUndefined aclKey || LangUtils.isEmptyArray aclKey
  then ret tt
  else if negb (ValidationUtils.isValidUuidArray aclKey)
  then throw (Error invalid_aclKey)
  else assign (set_aclKey aclKey).

Definition setPermissions (permissions : JsValue) : method AccessCheckBuilder unit :=
  if lodash.isUndefined permissions || LangUtils.isEmptyArray permissions
  then ret tt
  else if negb (ValidationUtils.isValidPermissionArray permissions)
  then throw (Error invalid_permissions)
  else
    match permissions with
    | JsArray elems =>
        assign (set_permissions
                  (ImmutableSet.toJS (ImmutableSet.withMutations_forEach_add elems)))
    | _ => throw (TypeError "permissions.forEach is not a function")
    end.

Definition build : method AccessCheckBuilder AccessCheck.AccessCheck :=
  this <- get_this ;;
  (if negb (truthy (aclKey this)) then assign (set_aclKey (JsArray [])) else ret tt) ;;
  this <- get_this ;;
  (if negb (truthy (permissions this)) then assign (set_permissions (JsArray [])) else ret tt) ;;
  this <- get_this ;;
  ret (AccessCheck.constructor (aclKey this) (permissions this)).

(** [new AccessCheckBuilder()] *)
Definition empty : AccessCheckBuilder :=
  {| aclKey := JsUndefined; permissions := JsUndefined |}.

(** [isValid(accessCheck)], the messages it logs left out. *)
Definition isValid (accessCheck : JsValue) : bool :=
  if negb (LangUtils.isDefined accessCheck) then false
  else if negb (has_prop accessCheck "aclKey") || negb (has_prop accessCheck "permissions")
  then false
  else
    match (setAclKey (get_prop accessCheck "aclKey") ;;
           setPermissions (get_prop accessCheck "permissions") ;;
           build) empty with
    | (Normal _, _) => true
    | (Throw _, _) => false
    end.

(** *** The states a builder can be in *)

(** The calls the class offers on a builder. *)
Inductive call : Type :=
| SetAclKey (v : JsValue)
| SetPermissions (v : JsValue)
| Build.

Definition after (c : call) (this : AccessCheckBuilder) : AccessCheckBuilder :=
  match c with
  | SetAclKey v => (setAclKey v this).2
  | SetPermissions v => (setPermissions v this).2
  | Build => (build this).2
  end.

(** A builder is reachable when it is a fresh one on which calls were made,
    whether they returned or threw. *)
Inductive reachable : AccessCheckBuilder -> Prop :=
| reachable_new : reachable empty
| reachable_call (c : call) (this : AccessCheckBuilder) :
    reachable this -> reachable (after c this).

(** What the calls maintain: a field is unset, or the empty array [build]
    gave it, or an array that passed its setter's test; the permissions a
    setter stored hold no value twice. *)
Definition validated (this : AccessCheckBuilder) : Prop :=
  (aclKey this = JsUndefined \/ aclKey this = JsArray []
   \/ ValidationUtils.isValidUuidArray (aclKey this) = true)
  /\ (permissions this = JsUndefined \/ permissions this = JsArray []
      \/ exists q, permissions this = JsArray q /\ NoDup q
                   /\ ValidationUtils.isValidPermissionArray (JsArray q) = true).

(** An instance of AccessCheck handed back to the library, seen through its
    two own properties. *)
Definition as_object (accessCheck : AccessCheck.AccessCheck) : JsValue :=
  JsObject [("aclKey", AccessCheck.aclKey accessCheck);
            ("permissions", AccessCheck.permissions accessCheck)].

End AccessCheckBuilder.
End AccessCheckBuilder.

(** ** types/FullyQualifiedName *)

Module FullyQualifiedName.

(** Modelled from the spec: types/FullyQualifiedName.js is not among the
    sources.  A fully qualified name is [{namespace, name}], valid iff both
    are non-empty strings. *)
Definition isValidFqnObjectLiteral (value : JsValue) : bool :=
  LangUtils.isNonEmptyString (get_prop value "namespace")
  && LangUtils.isNonEmptyString (get_prop value "name").

(** Modelled from the spec: types/FullyQualifiedName.js is not among the
    sources.  [(new FullyQualifiedName(namespace, name)).isValid()]: both are
    non-empty strings. *)
Definition constructor_isValid (namespace name : JsValue) : bool :=
  LangUtils.isNonEmptyString namespace && LangUtils.isNonEmptyString name.

End FullyQualifiedName.

(** ** What a wrapper returns *)

(** constants/ApiNames is not among the sources: the names select the axios
    instance and are kept as symbols. *)
Inductive ApiName : Type := LINKING_API | DATA_API | DATA_INTEGRATION_API | EDM_API.

Inductive HttpVerb : Type := GET | PUT | POST | DELETE | PATCH.

(** A template literal, kept as its parts: the text between the
    placeholders and the value of each placeholder.  [BaseUrl] is
    [getApiBaseUrl(api)]. *)
Inductive TemplatePart : Type :=
| Lit (text : string)
| Interp (value : JsValue)
| BaseUrl (api : ApiName).

(** The call made on the axios instance of [api]: [verb(url)] when
    [argument] is [None], [verb(url, argument)] otherwise, the second argument
    being the request body of put, post and patch and the request
    configuration of get and delete. *)
Record HttpRequest : Type := {
  api : ApiName;
  verb : HttpVerb;
  url : list TemplatePart;
  argument : option JsValue;
}.

(** The Promise a wrapper returns: [Promise.reject(reason)] made before any
    request, or the Promise of the request it issued.  What the transport
    answers, and what the [then] and [catch] handlers make of it, is outside
    the model, as are the messages logged. *)
Inductive Promise : Type :=
| Rejected (reason : string)
| Requested (request : HttpRequest).

(** [array.reduce((isValid, x) => isValid && test(x), true)] *)
Definition reduce_and (test : JsValue -> bool) (array : JsValue) : bool :=
  match array with
  | JsArray elems => foldl (fun isValid x => isValid && test x) true elems
  | _ => true
  end.

(** constants/ApiPaths, with the values test/constants/ApiPaths.test.js
    expects. *)
Module ApiPaths.
Definition ENTITY_SET_PATH : string := "entity/set".
Definition ENTITY_TYPE_PATH : string := "entity/type".
Definition NAMESPACE_PATH : string := "namespace".
Definition PROPERTY_TYPE_PATH : string := "property/type".
Definition SET_PATH : string := "set".
Definition TYPE_PATH : string := "type".
Definition ENTITY_DATA_PATH : string := "entitydata".
Definition SCHEMA_PATH : string := "schema".
(** Not covered by the test; the values are those of the routes documented
    above the wrappers that use them. *)
Definition GET_DATA_PATH : string := "getData".
Definition ADD_PROPERTY_TYPES_PATH : string := "addPropertyTypes".
Definition DELETE_PROPERTY_TYPES_PATH : string := "deletePropertyTypes".
End ApiPaths.

(** ** api/LinkingApi *)

Module LinkingApi.
Section LinkingApi.
Context `{UUIDValidator}.
Import ApiPaths.

Definition invalid_syncId : string := "invalid parameter: syncId must be a valid UUID".
Definition invalid_entitySetId : string := "invalid parameter: entitySetId must be a valid UUID".
Definition invalid_entityId : string := "invalid parameter: entityId must be a non-empty string".
Definition invalid_linkedEntityId : string :=
  "invalid parameter: linkedEntityId must be a non-empty string".

Definition createLinkingEntityType (linkingEntityType : JsValue) : Promise :=
  Requested {| api := LINKING_API; verb := POST;
               url := [Lit "/"; Lit TYPE_PATH];
               argument := Some linkingEntityType |}.

Definition linkEntitySets (linkingEntitySet : JsValue) : Promise :=
  Requested {| api := LINKING_API; verb := POST;
               url := [Lit "/"; Lit SET_PATH];
               argument := Some linkingEntitySet |}.

Definition linkEntities (syncId entitySetId entityId entities : JsValue) : Promise :=
  if negb (isValidUUID syncId) then Rejected invalid_syncId
  else if negb (isValidUUID entitySetId) then Rejected invalid_entitySetId
  else if negb (LangUtils.isNonEmptyString entityId) then Rejected invalid_entityId
  else
    Requested {| api := LINKING_API; verb := POST;
                 url := [Lit "/"; Lit SET_PATH; Lit "/"; Interp syncId; Lit "/";
                         Interp entitySetId; Lit "/"; Interp entityId];
                 argument := Some entities |}.

Definition setLinkedEntities (syncId entitySetId entityId entities : JsValue) : Promise :=
  if negb (isValidUUID syncId) then Rejected invalid_syncId
  else if negb (isValidUUID entitySetId) then Rejected invalid_entitySetId
  else if negb (LangUtils.isNonEmptyString entityId) then Rejected invalid_entityId
  else
    Requested {| api := LINKING_API; verb := PUT;
                 url := [Lit "/"; Lit SET_PATH; Lit "/"; Interp syncId; Lit "/";
                         Interp entitySetId; Lit "/"; Interp entityId];
                 argument := Some entities |}.

Definition removeLinkedEntities (syncId entitySetId entityId : JsValue) : Promise :=
  if negb (isValidUUID syncId) then Rejected invalid_syncId
  else if negb (isValidUUID entitySetId) then Rejected invalid_entitySetId
  else if negb (LangUtils.isNonEmptyString entityId) then Rejected invalid_entityId
  else
    Requested {| api := LINKING_API; verb := DELETE;
                 url := [Lit "/"; Lit SET_PATH; Lit "/"; Interp syncId; Lit "/";
                         Interp entitySetId; Lit "/"; Interp entityId];
                 argument := None |}.

Definition addLinkedEntities (syncId entitySetId entityId linkedEntityId : JsValue) : Promise :=
  if negb (isValidUUID syncId) then Rejected invalid_syncId
  else if negb (isValidUUID entitySetId) then Rejected invalid_entitySetId
  else if negb (LangUtils.isNonEmptyString entityId) then Rejected invalid_entityId
  else if negb (LangUtils.isNonEmptyString linkedEntityId) then Rejected invalid_linkedEntityId
  else
    Requested {| api := LINKING_API; verb := PUT;
                 url := [Lit "/"; Lit SET_PATH; Lit "/"; Interp syncId; Lit "/";
                         Interp entitySetId; Lit "/"; Interp entityId; Lit "/";
                         Interp linkedEntityId];
                 argument := None |}.

Definition removeLinkedEntity (syncId entitySetId entityId linkedEntityId : JsValue) : Promise :=
  if negb (isValidUUID syncId) then Rejected invalid_syncId
  else if negb (isValidUUID entitySetId) then Rejected invalid_entitySetId
  else if negb (LangUtils.isNonEmptyString entityId) then Rejected invalid_entityId
  else if negb (LangUtils.isNonEmptyString linkedEntityId) then Rejected invalid_linkedEntityId
  else
    Requested {| api := LINKING_API; verb := DELETE;
                 url := [Lit "/"; Lit SET_PATH; Lit "/"; Interp syncId; Lit "/";
                         Interp entitySetId; Lit "/"; Interp entityId; Lit "/";
                         Interp linkedEntityId];
                 argument := None |}.

End LinkingApi.
End LinkingApi.

(** ** DataIntegrationApi *)

Module DataIntegrationApi.

Definition invalid_bulkDataCreation : string :=
  "invalid parameter: bulkDataCreation must be a non-empty object".

Definition createEntityAndAssociationData (bulkDataCreation : JsValue) : Promise :=
  if lodash.isUndefined bulkDataCreation || negb (LangUtils.isNonEmptyObject bulkDataCreation)
  then Rejected invalid_bulkDataCreation
  else
    Requested {| api := DATA_INTEGRATION_API; verb := POST;
                 url := [Lit "/"];
                 argument := Some bulkDataCreation |}.

End DataIntegrationApi.

(** ** src/DataApi.js *)

Module DataApi.

Definition ENTITY_DATA_PATH : string := "entitydata".
Definition MULTIPLE_PATH : string := "multiple".

Definition invalid_entityTypeFqn : string :=
  "invalid parameter: entityTypeFqn must be a valid object literal".
Definition invalid_entitySetName : string :=
  "invalid parameter: entitySetName must be a non-empty string".

Definition getAllEntitiesOfType (entityTypeFqn : JsValue) : Promise :=
  if negb (FullyQualifiedName.isValidFqnObjectLiteral entityTypeFqn)
  then Rejected invalid_entityTypeFqn
  else
    let namespace := get_prop entityTypeFqn "namespace" in
    let name := get_prop entityTypeFqn "name" in
    Requested {| api := DATA_API; verb := GET;
                 url := [Lit "/"; Lit ENTITY_DATA_PATH; Lit "/"; Interp namespace;
                         Lit "/"; Interp name];
                 argument := None |}.

Definition downloadAllEntitiesOfType (entityTypeFqn fileType : JsValue) : Promise :=
  if negb (FullyQualifiedName.isValidFqnObjectLiteral entityTypeFqn)
  then Rejected invalid_entityTypeFqn
  else
    let namespace := get_prop entityTypeFqn "namespace" in
    let name := get_prop entityTypeFqn "name" in
    Requested {| api := DATA_API; verb := GET;
                 url := [Lit "/"; Lit ENTITY_DATA_PATH; Lit "/"; Interp namespace;
                         Lit "/"; Interp name];
                 argument := Some (JsObject [("params", JsObject [("fileType", fileType)])]) |}.

Definition getAllEntitiesOfTypes (entityTypeFqns : JsValue) : Promise :=
  Requested {| api := DATA_API; verb := PUT;
               url := [Lit "/"; Lit ENTITY_DATA_PATH; Lit "/"; Lit MULTIPLE_PATH];
               argument := Some entityTypeFqns |}.

Definition getAllEntitiesOfTypeInSet (entityTypeFqn entitySetName : JsValue) : Promise :=
  if negb (FullyQualifiedName.isValidFqnObjectLiteral entityTypeFqn)
  then Rejected invalid_entityTypeFqn
  else if LangUtils.isNonEmptyString entitySetName
  then Rejected invalid_entitySetName
  else
    let namespace := get_prop entityTypeFqn "namespace" in
    let name := get_prop entityTypeFqn "name" in
    Requested {| api := DATA_API; verb := GET;
                 url := [Lit "/"; Lit ENTITY_DATA_PATH; Lit "/"; Interp namespace;
                         Lit "/"; Interp name; Lit "/"; Interp entitySetName];
                 argument := None |}.

Definition downloadAllEntitiesOfTypeInSet (entityTypeFqn entitySetName fileType : JsValue)
  : Promise :=
  if negb (FullyQualifiedName.isValidFqnObjectLiteral entityTypeFqn)
  then Rejected invalid_entityTypeFqn
  else if LangUtils.isNonEmptyString entitySetName
  then Rejected invalid_entitySetName
  else
    let namespace := get_prop entityTypeFqn "namespace" in
    let name := get_prop entityTypeFqn "name" in
    Requested {| api := DATA_API; verb := GET;
                 url := [Lit "/"; Lit ENTITY_DATA_PATH; Lit "/"; Interp namespace;
                         Lit "/"; Interp name; Lit "/"; Interp entitySetName];
                 argument := Some (JsObject [("params", JsObject [("fileType", fileType)])]) |}.

Definition createEntity (createEntityRequest : JsValue) : Promise :=
  Requested {| api := DATA_API; verb := POST;
               url := [Lit "/"; Lit ENTITY_DATA_PATH];
               argument := Some createEntityRequest |}.

End DataApi.

(** ** src/api/DataApi.js *)

Module api_DataApi.
Section api_DataApi.
Context `{UUIDValidator}.
Import ApiPaths.

(** [FILE_TYPES], an Immutable Map, as its entries. *)
Definition FILE_TYPES : list (string * string) :=
  [("csv", "csv"); ("CSV", "csv"); ("json", "json"); ("JSON", "json")].

(** [FILE_TYPES.contains(value)]: some entry has this value. *)
Definition FILE_TYPES_contains (value : JsValue) : bool :=
  existsb (fun entry => bool_decide (value = JsString entry.2)) FILE_TYPES.

(** [FILE_TYPES.get(key)] *)
Definition FILE_TYPES_get (key : JsValue) : JsValue :=
  match key with
  | JsString k =>
      match list_find (fun entry => entry.1 = k) FILE_TYPES with
      | Some (_, entry) => JsString entry.2
      | None => JsUndefined
      end
  | _ => JsUndefined
  end.

Definition invalid_entitySetId : string := "invalid parameter: entitySetId must be a valid UUID".
Definition invalid_syncId : string := "invalid parameter: syncId must be a valid UUID".
Definition invalid_syncIds : string :=
  "invalid parameter: syncIds must be a non-empty array of valid UUIDs".
Definition invalid_propertyTypeIds : string :=
  "invalid parameter: propertyTypeIds must be a non-empty array of valid UUIDs".
Definition invalid_entities : string :=
  "invalid parameter: entities must be a non-empty object".

Definition getEntitySetData (entitySetId : JsValue) : Promise :=
  if negb (isValidUUID entitySetId) then Rejected invalid_entitySetId
  else
    Requested {| api := DATA_API; verb := GET;
                 url := [Lit "/"; Lit ENTITY_DATA_PATH; Lit "/"; Interp entitySetId];
                 argument := None |}.

(** Returns a URL, or [null] ([None]) after a warning. *)
Definition getEntitySetDataFileUrl (entitySetId fileType : JsValue)
  : option (list TemplatePart) :=
  if negb (isValidUUID entitySetId) then None
  else if negb (FILE_TYPES_contains fileType) then None
  else Some [BaseUrl DATA_API; Lit "/"; Lit ENTITY_DATA_PATH; Lit "/"; Interp entitySetId;
             Lit "?fileType="; Interp (FILE_TYPES_get fileType)].

Definition getSelectedEntitySetData (entitySetId syncIds propertyTypeIds : JsValue) : Promise :=
  if negb (isValidUUID entitySetId) then Rejected invalid_entitySetId
  else if negb (ValidationUtils.isValidUuidArray syncIds) then Rejected invalid_syncIds
  else if negb (ValidationUtils.isValidUuidArray propertyTypeIds)
  then Rejected invalid_propertyTypeIds
  else
    let data := JsObject [("syncIds", syncIds); ("properties", propertyTypeIds)] in
    Requested {| api := DATA_API; verb := POST;
                 url := [Lit "/"; Lit ENTITY_DATA_PATH; Lit "/"; Interp entitySetId;
                         Lit "/"; Lit GET_DATA_PATH];
                 argument := Some data |}.

Definition createEntityData (entitySetId syncId entities : JsValue) : Promise :=
  if negb (isValidUUID entitySetId) then Rejected invalid_entitySetId
  else if negb (isValidUUID syncId) then Rejected invalid_syncId
  else if negb (LangUtils.isNonEmptyObject entities) then Rejected invalid_entities
  else
    Requested {| api := DATA_API; verb := POST;
                 url := [Lit "/"; Lit ENTITY_DATA_PATH; Lit "/"; Interp entitySetId;
                         Lit "/"; Interp syncId];
                 argument := Some entities |}.

End api_DataApi.
End api_DataApi.

(** ** src/api/EntityDataModelApi.js *)

Module EntityDataModelApi.
Section EntityDataModelApi.
Context `{UUIDValidator}.
Import ApiPaths.

Definition invalid_schemaFqn : string :=
  "invalid parameter: schemaFqn must be a valid FQN object literal".
Definition invalid_namespace : string :=
  "invalid parameter: namespace must be a non-empty string".
Definition invalid_entityTypeFqns_array : string :=
  "invalid parameter: entityTypeFqns must be a non-empty array".
Definition invalid_entityTypeFqns_fqns : string :=
  "invalid parameter: entityTypeFqns must be an array of valid FQN object literals".
Definition invalid_propertyTypeFqns_array : string :=
  "invalid parameter: propertyTypeFqns must be a non-empty array".
Definition invalid_propertyTypeFqns_fqns : string :=
  "invalid parameter: propertyTypeFqns must be an array of valid FQN object literals".
Definition invalid_entitySets_array : string :=
  "invalid parameter: entitySets must be a non-empty array".
Definition invalid_entitySets_fqns : string :=
  "invalid parameter: entitySets must be an array of valid FQN object literals".
Definition invalid_entityTypeId : string :=
  "invalid parameter: entityTypeId must be a valid UUID".
Definition invalid_propertyTypeIds_array : string :=
  "invalid parameter: propertyTypeIds must be a non-empty array".
Definition invalid_propertyTypeIds_uuids : string :=
  "invalid parameter: propertyTypeIds must be an array of valid UUIDs".
Definition invalid_propertyTypeId : string :=
  "invalid parameter: propertyTypeId must be a valid UUID".
Definition invalid_propertyTypeFqn : string :=
  "invalid parameter: propertyTypeFqn must be a valid FQN object literal".

Definition getEntityDataModel : Promise :=
  Requested {| api := EDM_API; verb := GET; url := [Lit "/"]; argument := None |}.

Definition getSchema (schemaFqn : JsValue) : Promise :=
  if negb (FullyQualifiedName.isValidFqnObjectLiteral schemaFqn)
  then Rejected invalid_schemaFqn
  else
    let namespace := get_prop schemaFqn "namespace" in
    let name := get_prop schemaFqn "name" in
    Requested {| api := EDM_API; verb := GET;
                 url := [Lit "/"; Lit SCHEMA_PATH; Lit "/"; Interp namespace; Lit "/";
                         Interp name];
                 argument := None |}.

Definition getAllSchemas : Promise :=
  Requested {| api := EDM_API; verb := GET; url := [Lit "/"; Lit SCHEMA_PATH];
               argument := None |}.

Definition getAllSchemasInNamespace (namespace : JsValue) : Promise :=
  if negb (LangUtils.isNonEmptyString namespace) then Rejected invalid_namespace
  else
    Requested {| api := EDM_API; verb := GET;
                 url := [Lit "/"; Lit SCHEMA_PATH; Lit "/"; Interp namespace];
                 argument := None |}.

Definition createSchema (schemaFqn : JsValue) : Promise :=
  if negb (FullyQualifiedName.isValidFqnObjectLiteral schemaFqn)
  then Rejected invalid_schemaFqn
  else
    Requested {| api := EDM_API; verb := PUT; url := [Lit "/"; Lit SCHEMA_PATH];
                 argument := Some schemaFqn |}.

Definition addEntityTypesToSchema (schemaFqn entityTypeFqns : JsValue) : Promise :=
  if negb (FullyQualifiedName.isValidFqnObjectLiteral schemaFqn)
  then Rejected invalid_schemaFqn
  else if negb (LangUtils.isNonEmptyArray entityTypeFqns)
  then Rejected invalid_entityTypeFqns_array
  else
    let allValid := reduce_and FullyQualifiedName.isValidFqnObjectLiteral entityTypeFqns in
    if negb allValid then Rejected invalid_entityTypeFqns_fqns
    else
      let namespace := get_prop schemaFqn "namespace" in
      let name := get_prop schemaFqn "name" in
      Requested {| api := EDM_API; verb := PUT;
                   url := [Lit "/"; Lit SCHEMA_PATH; Lit "/"; Interp namespace; Lit "/";
                           Interp name];
                   argument := Some entityTypeFqns |}.

Definition removeEntityTypesFromSchema (schemaFqn entityTypeFqns : JsValue) : Promise :=
  if negb (FullyQualifiedName.isValidFqnObjectLiteral schemaFqn)
  then Rejected invalid_schemaFqn
  else if negb (LangUtils.isNonEmptyArray entityTypeFqns)
  then Rejected invalid_entityTypeFqns_array
  else
    let allValid := reduce_and FullyQualifiedName.isValidFqnObjectLiteral entityTypeFqns in
    if negb allValid then Rejected invalid_entityTypeFqns_fqns
    else
      let namespace := get_prop schemaFqn "namespace" in
      let name := get_prop schemaFqn "name" in
      Requested {| api := EDM_API; verb := DELETE;
                   url := [Lit "/"; Lit SCHEMA_PATH; Lit "/"; Interp namespace; Lit "/";
                           Interp name];
                   argument := Some (JsObject [("data", entityTypeFqns)]) |}.

Definition addPropertyTypesToSchema (schemaFqn propertyTypeFqns : JsValue) : Promise :=
  if negb (FullyQualifiedName.isValidFqnObjectLiteral schemaFqn)
  then Rejected invalid_schemaFqn
  else if negb (LangUtils.isNonEmptyArray propertyTypeFqns)
  then Rejected invalid_propertyTypeFqns_array
  else
    let allValid := reduce_and FullyQualifiedName.isValidFqnObjectLiteral propertyTypeFqns in
    if negb allValid then Rejected invalid_propertyTypeFqns_fqns
    else
      let namespace := get_prop schemaFqn "namespace" in
      let name := get_prop schemaFqn "name" in
      Requested {| api := EDM_API; verb := PUT;
                   url := [Lit "/"; Lit SCHEMA_PATH; Lit "/"; Interp namespace; Lit "/";
                           Interp name; Lit "/"; Lit ADD_PROPERTY_TYPES_PATH];
                   argument := Some propertyTypeFqns |}.

Definition removePropertyTypesFromSchema (schemaFqn propertyTypeFqns : JsValue) : Promise :=
  if negb (FullyQualifiedName.isValidFqnObjectLiteral schemaFqn)
  then Rejected invalid_schemaFqn
  else if negb (LangUtils.isNonEmptyArray propertyTypeFqns)
  then Rejected invalid_propertyTypeFqns_array
  else
    let allValid := reduce_and FullyQualifiedName.isValidFqnObjectLiteral propertyTypeFqns in
    if negb allValid then Rejected invalid_propertyTypeFqns_fqns
    else
      let namespace := get_prop schemaFqn "namespace" in
      let name := get_prop schemaFqn "name" in
      Requested {| api := EDM_API; verb := DELETE;
                   url := [Lit "/"; Lit SCHEMA_PATH; Lit "/"; Interp namespace; Lit "/";
                           Interp name; Lit "/"; Lit DELETE_PROPERTY_TYPES_PATH];
                   argument := Some (JsObject [("data", propertyTypeFqns)]) |}.

Definition getAllEntitySets (isOwner : JsValue) : Promise :=
  let queryString :=
    if lodash.isNil isOwner then []
    else [Lit "?isOwner="; Interp (JsBool (truthy isOwner))] in
  Requested {| api := EDM_API; verb := GET;
               url := [Lit "/"; Lit ENTITY_SET_PATH] ++ queryString;
               argument := None |}.

Definition createEntitySets (entitySets : JsValue) : Promise :=
  if negb (LangUtils.isNonEmptyArray entitySets) then Rejected invalid_entitySets_array
  else
    let allValid := reduce_and LangUtils.isNonEmptyObject entitySets in
    if negb allValid then Rejected invalid_entitySets_fqns
    else
      Requested {| api := EDM_API; verb := POST; url := [Lit "/"; Lit ENTITY_SET_PATH];
                   argument := Some entitySets |}.

Definition getEntityType (entityTypeId : JsValue) : Promise :=
  if negb (isValidUUID entityTypeId) then Rejected invalid_entityTypeId
  else
    Requested {| api := EDM_API; verb := GET;
                 url := [Lit "/"; Lit ENTITY_TYPE_PATH; Lit "/"; Interp entityTypeId];
                 argument := None |}.

Definition getAllEntityTypes : Promise :=
  Requested {| api := EDM_API; verb := GET; url := [Lit "/"; Lit ENTITY_TYPE_PATH];
               argument := None |}.

Definition createEntityType (entityType : JsValue) : Promise :=
  if negb (LangUtils.isNonEmptyObject entityType)
  then Rejected "invalid parameter: entityType must be a non-empty object literal"
  else if negb (lodash.isUndefined (get_prop entityType "id"))
          && negb (isValidUUID (get_prop entityType "id"))
  then Rejected "invalid parameter: entityType.id must be a valid UUID"
  else if negb (FullyQualifiedName.constructor_isValid
                  (get_prop entityType "namespace") (get_prop entityType "name"))
  then Rejected
         "invalid parameters: entityType.namespace and entityType.name must form a valid FQN"
  else if negb (LangUtils.isNonEmptyArray (get_prop entityType "schemas"))
  then Rejected "invalid parameter: entityType.schemas must be a non-empty array"
  else
    let allValidSchemaFqns :=
      reduce_and FullyQualifiedName.isValidFqnObjectLiteral (get_prop entityType "schemas") in
    if negb allValidSchemaFqns
    then Rejected
           "invalid parameter: entityType.schemas must be an array of valid FQN object literals"
    else if negb (LangUtils.isNonEmptyArray (get_prop entityType "key"))
    then Rejected "invalid parameter: entityType.key must be a non-empty array"
    else
      let allValidKeyIds := reduce_and isValidUUID (get_prop entityType "key") in
      if negb allValidKeyIds
      then Rejected "invalid parameter: entityType.key must be an array of valid UUIDs"
      else if negb (LangUtils.isNonEmptyArray (get_prop entityType "properties"))
      then Rejected "invalid parameter: entityType.properties must be a non-empty array"
      else
        let allValidPropertyIds := reduce_and isValidUUID (get_prop entityType "properties") in
        if negb allValidPropertyIds
        then Rejected "invalid parameter: entityType.properties must be an array of valid UUIDs"
        else
          Requested {| api := EDM_API; verb := POST;
                       url := [Lit "/"; Lit ENTITY_TYPE_PATH];
                       argument := Some entityType |}.

Definition deleteEntityType (entityTypeId : JsValue) : Promise :=
  if negb (isValidUUID entityTypeId) then Rejected invalid_entityTypeId
  else
    Requested {| api := EDM_API; verb := DELETE;
                 url := [Lit "/"; Lit ENTITY_TYPE_PATH; Lit "/"; Interp entityTypeId];
                 argument := None |}.

Definition updatePropertyTypesForEntityType (entityTypeId propertyTypeIds : JsValue) : Promise :=
  if negb (isValidUUID entityTypeId) then Rejected invalid_entityTypeId
  else if negb (LangUtils.isNonEmptyArray propertyTypeIds)
  then Rejected invalid_propertyTypeIds_array
  else
    let allValid := reduce_and isValidUUID propertyTypeIds in
    if negb allValid then Rejected invalid_propertyTypeIds_uuids
    else
      Requested {| api := EDM_API; verb := PATCH;
                   url := [Lit "/"; Lit ENTITY_TYPE_PATH; Lit "/"; Interp entityTypeId];
                   argument := Some propertyTypeIds |}.

Definition getPropertyType (propertyTypeId : JsValue) : Promise :=
  if negb (isValidUUID propertyTypeId) then Rejected invalid_propertyTypeId
  else
    Requested {| api := EDM_API; verb := GET;
                 url := [Lit "/"; Lit PROPERTY_TYPE_PATH; Lit "/"; Interp propertyTypeId];
                 argument := None |}.

Definition getAllPropertyTypes : Promise :=
  Requested {| api := EDM_API; verb := GET; url := [Lit "/"; Lit PROPERTY_TYPE_PATH];
               argument := None |}.

Definition getAllPropertyTypesInNamespace (namespace : JsValue) : Promise :=
  if negb (LangUtils.isNonEmptyString namespace) then Rejected invalid_namespace
  else
    Requested {| api := EDM_API; verb := GET;
                 url := [Lit "/"; Lit NAMESPACE_PATH; Lit "/"; Interp namespace; Lit "/";
                         Lit PROPERTY_TYPE_PATH];
                 argument := None |}.

Definition createPropertyType (propertyType : JsValue) : Promise :=
  if negb (LangUtils.isNonEmptyObject propertyType)
  then Rejected "invalid parameter: propertyType must be a non-empty object literal"
  else if negb (lodash.isUndefined (get_prop propertyType "id"))
          && negb (isValidUUID (get_prop propertyType "id"))
  then Rejected "invalid parameter: propertyType.id must be a valid UUID"
  else if negb (FullyQualifiedName.constructor_isValid
                  (get_prop propertyType "namespace") (get_prop propertyType "name"))
  then Rejected
         "invalid parameters: propertyType.namespace and propertyType.name must form a valid FQN"
  else if negb (LangUtils.isNonEmptyString (get_prop propertyType "datatype"))
  then Rejected "invalid parameter: propertyType.datatype must be a non-empty string"
  else if negb (LangUtils.isNonEmptyArray (get_prop propertyType "schemas"))
  then Rejected "invalid parameter: propertyType.schemas must be a non-empty array"
  else
    let allValid :=
      reduce_and FullyQualifiedName.isValidFqnObjectLiteral (get_prop propertyType "schemas") in
    if negb allValid
    then Rejected
           "invalid parameter: propertyType.schemas must be an array of valid FQN object literals"
    else
      Requested {| api := EDM_API; verb := POST;
                   url := [Lit "/"; Lit PROPERTY_TYPE_PATH];
                   argument := Some propertyType |}.

Definition deletePropertyType (propertyTypeId propertyTypeFqn : JsValue) : Promise :=
  if negb (isValidUUID propertyTypeId) then Rejected invalid_propertyTypeId
  else if negb (FullyQualifiedName.isValidFqnObjectLiteral propertyTypeFqn)
  then Rejected invalid_propertyTypeFqn
  else
    let name := get_prop propertyTypeFqn "name" in
    Requested {| api := EDM_API; verb := DELETE;
                 url := [Lit "/"; Lit PROPERTY_TYPE_PATH; Lit "/"; Interp propertyTypeId;
                         Lit "/"; Interp name];
                 argument := None |}.

End EntityDataModelApi.
End EntityDataModelApi.

(** ** The exported wrappers, side by side *)

Module Exports.
Section Exports.
Context `{UUIDValidator}.

(** The [n]-th argument of a call; an argument the caller left out is
    [undefined]. *)
Definition arg (n : nat) (args : list JsValue) : JsValue := nth n args JsUndefined.

(** An exported wrapper, called on a list of arguments, with the test its
    guards make of them: [accepts] is the conjunction of the validation
    predicates the wrapper applies to its parameters. *)
Record wrapper : Type := {
  name : string;
  call : list JsValue -> Promise;
  accepts : list JsValue -> bool;
}.

Definition all_of (test : JsValue -> bool) (array : JsValue) : bool :=
  LangUtils.isNonEmptyArray array && reduce_and test array.

(** The wrappers that guard every parameter they validate with the negation
    of its predicate. *)
Definition guarded : list wrapper :=
  [ {| name := "LinkingApi.linkEntities";
       call args := LinkingApi.linkEntities (arg 0 args) (arg 1 args) (arg 2 args) (arg 3 args);
       accepts args := isValidUUID (arg 0 args) && isValidUUID (arg 1 args)
                       && LangUtils.isNonEmptyString (arg 2 args) |};
    {| name := "LinkingApi.setLinkedEntities";
       call args := LinkingApi.setLinkedEntities (arg 0 args) (arg 1 args) (arg 2 args) (arg 3 args);
       accepts args := isValidUUID (arg 0 args) && isValidUUID (arg 1 args)
                       && LangUtils.isNonEmptyString (arg 2 args) |};
    {| name := "LinkingApi.removeLinkedEntities";
       call args := LinkingApi.removeLinkedEntities (arg 0 args) (arg 1 args) (arg 2 args);
       accepts args := isValidUUID (arg 0 args) && isValidUUID (arg 1 args)
                       && LangUtils.isNonEmptyString (arg 2 args) |};
    {| name := "LinkingApi.addLinkedEntities";
       call args := LinkingApi.addLinkedEntities (arg 0 args) (arg 1 args) (arg 2 args) (arg 3 args);
       accepts args := isValidUUID (arg 0 args) && isValidUUID (arg 1 args)
                       && LangUtils.isNonEmptyString (arg 2 args)
                       && LangUtils.isNonEmptyString (arg 3 args) |};
    {| name := "LinkingApi.removeLinkedEntity";
       call args := LinkingApi.removeLinkedEntity (arg 0 args) (arg 1 args) (arg 2 args) (arg 3 args);
       accepts args := isValidUUID (arg 0 args) && isValidUUID (arg 1 args)
                       && LangUtils.isNonEmptyString (arg 2 args)
                       && LangUtils.isNonEmptyString (arg 3 args) |};
    {| name := "DataIntegrationApi.createEntityAndAssociationData";
       call args := DataIntegrationApi.createEntityAndAssociationData (arg 0 args);
       accepts args := negb (lodash.isUndefined (arg 0 args))
                       && LangUtils.isNonEmptyObject (arg 0 args) |};
    {| name := "DataApi.getAllEntitiesOfType";
       call args := DataApi.getAllEntitiesOfType (arg 0 args);
       accepts args := FullyQualifiedName.isValidFqnObjectLiteral (arg 0 args) |};
    {| name := "DataApi.downloadAllEntitiesOfType";
       call args := DataApi.downloadAllEntitiesOfType (arg 0 args) (arg 1 args);
       accepts args := FullyQualifiedName.isValidFqnObjectLiteral (arg 0 args) |};
    {| name := "api/DataApi.getEntitySetData";
       call args := api_DataApi.getEntitySetData (arg 0 args);
       accepts args := isValidUUID (arg 0 args) |};
    {| name := "api/DataApi.getSelectedEntitySetData";
       call args := api_DataApi.getSelectedEntitySetData (arg 0 args) (arg 1 args) (arg 2 args);
       accepts args := isValidUUID (arg 0 args)
                       && ValidationUtils.isValidUuidArray (arg 1 args)
                       && ValidationUtils.isValidUuidArray (arg 2 args) |};
    {| name := "api/DataApi.createEntityData";
       call args := api_DataApi.createEntityData (arg 0 args) (arg 1 args) (arg 2 args);
       accepts args := isValidUUID (arg 0 args) && isValidUUID (arg 1 args)
                       && LangUtils.isNonEmptyObject (arg 2 args) |};
    {| name := "EntityDataModelApi.getSchema";
       call args := EntityDataModelApi.getSchema (arg 0 args);
       accepts args := FullyQualifiedName.isValidFqnObjectLiteral (arg 0 args) |};
    {| name := "EntityDataModelApi.getAllSchemasInNamespace";
       call args := EntityDataModelApi.getAllSchemasInNamespace (arg 0 args);
       accepts args := LangUtils.isNonEmptyString (arg 0 args) |};
    {| name := "EntityDataModelApi.createSchema";
       call args := EntityDataModelApi.createSchema (arg 0 args);
       accepts args := FullyQualifiedName.isValidFqnObjectLiteral (arg 0 args) |};
    {| name := "EntityDataModelApi.addEntityTypesToSchema";
       call args := EntityDataModelApi.addEntityTypesToSchema (arg 0 args) (arg 1 args);
       accepts args := FullyQualifiedName.isValidFqnObjectLiteral (arg 0 args)
                       && all_of FullyQualifiedName.isValidFqnObjectLiteral (arg 1 args) |};
    {| name := "EntityDataModelApi.removeEntityTypesFromSchema";
       call args := EntityDataModelApi.removeEntityTypesFromSchema (arg 0 args) (arg 1 args);
       accepts args := FullyQualifiedName.isValidFqnObjectLiteral (arg 0 args)
                       && all_of FullyQualifiedName.isValidFqnObjectLiteral (arg 1 args) |};
    {| name := "EntityDataModelApi.addPropertyTypesToSchema";
       call args := EntityDataModelApi.addPropertyTypesToSchema (arg 0 args) (arg 1 args);
       accepts args := FullyQualifiedName.isValidFqnObjectLiteral (arg 0 args)
                       && all_of FullyQualifiedName.isValidFqnObjectLiteral (arg 1 args) |};
    {| name := "EntityDataModelApi.removePropertyTypesFromSchema";
       call args := EntityDataModelApi.removePropertyTypesFromSchema (arg 0 args) (arg 1 args);
       accepts args := FullyQualifiedName.isValidFqnObjectLiteral (arg 0 args)
                       && all_of FullyQualifiedName.isValidFqnObjectLiteral (arg 1 args) |};
    {| name := "EntityDataModelApi.createEntitySets";
       call args := EntityDataModelApi.createEntitySets (arg 0 args);
       accepts args := all_of LangUtils.isNonEmptyObject (arg 0 args) |};
    {| name := "EntityDataModelApi.getEntityType";
       call args := EntityDataModelApi.getEntityType (arg 0 args);
       accepts args := isValidUUID (arg 0 args) |};
    {| name := "EntityDataModelApi.createEntityType";
       call args := EntityDataModelApi.createEntityType (arg 0 args);
       accepts args :=
         let entityType := arg 0 args in
         LangUtils.isNonEmptyObject entityType
         && (lodash.isUndefined (get_prop entityType "id")
             || isValidUUID (get_prop entityType "id"))
         && FullyQualifiedName.constructor_isValid
              (get_prop entityType "namespace") (get_prop entityType "name")
         && all_of FullyQualifiedName.isValidFqnObjectLiteral (get_prop entityType "schemas")
         && all_of isValidUUID (get_prop entityType "key")
         && all_of isValidUUID (get_prop entityType "properties") |};
    {| name := "EntityDataModelApi.deleteEntityType";
       call args := EntityDataModelApi.deleteEntityType (arg 0 args);
       accepts args := isValidUUID (arg 0 args) |};
    {| name := "EntityDataModelApi.updatePropertyTypesForEntityType";
       call args := EntityDataModelApi.updatePropertyTypesForEntityType (arg 0 args) (arg 1 args);
       accepts args := isValidUUID (arg 0 args) && all_of isValidUUID (arg 1 args) |};
    {| name := "EntityDataModelApi.getPropertyType";
       call args := EntityDataModelApi.getPropertyType (arg 0 args);
       accepts args := isValidUUID (arg 0 args) |};
    {| name := "EntityDataModelApi.getAllPropertyTypesInNamespace";
       call args := EntityDataModelApi.getAllPropertyTypesInNamespace (arg 0 args);
       accepts args := LangUtils.isNonEmptyString (arg 0 args) |};
    {| name := "EntityDataModelApi.createPropertyType";
       call args := EntityDataModelApi.createPropertyType (arg 0 args);
       accepts args :=
         let propertyType := arg 0 args in
         LangUtils.isNonEmptyObject propertyType
         && (lodash.isUndefined (get_prop propertyType "id")
             || isValidUUID (get_prop propertyType "id"))
         && FullyQualifiedName.constructor_isValid
              (get_prop propertyType "namespace") (get_prop propertyType "name")
         && LangUtils.isNonEmptyString (get_prop propertyType "datatype")
         && all_of FullyQualifiedName.isValidFqnObjectLiteral
              (get_prop propertyType "schemas") |};
    {| name := "EntityDataModelApi.deletePropertyType";
       call args := EntityDataModelApi.deletePropertyType (arg 0 args) (arg 1 args);
       accepts args := isValidUUID (arg 0 args)
                       && FullyQualifiedName.isValidFqnObjectLiteral (arg 1 args) |} ].

(** The two wrappers whose guard on [entitySetName] is not the negation of
    its predicate, with the test made of [entityTypeFqn] alone. *)
Definition guarded_on_entityTypeFqn : list wrapper :=
  [ {| name := "DataApi.getAllEntitiesOfTypeInSet";
       call args := DataApi.getAllEntitiesOfTypeInSet (arg 0 args) (arg 1 args);
       accepts args := FullyQualifiedName.isValidFqnObjectLiteral (arg 0 args) |};
    {| name := "DataApi.downloadAllEntitiesOfTypeInSet";
       call args := DataApi.downloadAllEntitiesOfTypeInSet (arg 0 args) (arg 1 args) (arg 2 args);
       accepts args := FullyQualifiedName.isValidFqnObjectLiteral (arg 0 args) |} ].

(** The wrappers without any guard. *)
Definition unguarded : list wrapper :=
  [ {| name := "LinkingApi.createLinkingEntityType";
       call args := LinkingApi.createLinkingEntityType (arg 0 args);
       accepts args := true |};
    {| name := "LinkingApi.linkEntitySets";
       call args := LinkingApi.linkEntitySets (arg 0 args);
       accepts args := true |};
    {| name := "DataApi.getAllEntitiesOfTypes";
       call args := DataApi.getAllEntitiesOfTypes (arg 0 args);
       accepts args := true |};
    {| name := "DataApi.createEntity";
       call args := DataApi.createEntity (arg 0 args);
       accepts args := true |};
    {| name := "EntityDataModelApi.getEntityDataModel";
       call args := EntityDataModelApi.getEntityDataModel;
       accepts args := true |};
    {| name := "EntityDataModelApi.getAllSchemas";
       call args := EntityDataModelApi.getAllSchemas;
       accepts args := true |};
    {| name := "EntityDataModelApi.getAllEntitySets";
       call args := EntityDataModelApi.getAllEntitySets (arg 0 args);
       accepts args := true |};
    {| name := "EntityDataModelApi.getAllEntityTypes";
       call args := EntityDataModelApi.getAllEntityTypes;
       accepts args := true |};
    {| name := "EntityDataModelApi.getAllPropertyTypes";
       call args := EntityDataModelApi.getAllPropertyTypes;
       accepts args := true |} ].

(** The reason of a rejection made by a guard starts with these words. *)
Definition is_invalid_parameter (reason : string) : bool :=
  String.prefix "invalid parameter" reason.

(** A rejection before any request, for an invalid parameter. *)
Definition rejects_invalid_parameter (p : Promise) : Prop :=
  exists reason, p = Rejected reason /\ is_invalid_parameter reason = true.

Definition requests (p : Promise) : Prop := exists request, p = Requested request.

End Exports.
End Exports.

(** ** Objects in the store *)

(** For the effect of a method on the objects that exist when it is called,
    instances, object literals and arrays live in a store and are designated
    by references. *)
Module Store.

Definition loc : Type := positive.

Inductive value : Type :=
| VUndefined
| VNull
| VBool (b : bool)
| VNumber (n : Z)
| VString (s : string)
| VRef (l : loc).

Inductive object : Type :=
| OObject (props : list (string * value))
| OArray (elems : list value).

Abbreviation store := (gmap loc object).

Definition isDefined (v : value) : bool :=
  match v with VUndefined | VNull => false | _ => true end.

Fixpoint props_get (k : string) (ps : list (string * value)) : option value :=
  match ps with
  | [] => None
  | (k', v) :: rest => if String.eqb k k' then Some v else props_get k rest
  end.

Fixpoint props_set (k : string) (v : value) (ps : list (string * value))
  : list (string * value) :=
  match ps with
  | [] => [(k, v)]
  | (k', v') :: rest =>
      if String.eqb k k' then (k', v) :: rest else (k', v') :: props_set k v rest
  end.

(** An object literal or array literal: a new object, at a location not in
    use. *)
Definition alloc (o : object) : method store loc :=
  fun h => let l := fresh (dom h) in (Normal l, <[l := o]> h).

(** [o.k], [undefined] when there is no such property. *)
Definition load (o : value) (k : string) : method store value :=
  fun h =>
    match o with
    | VRef l =>
        match h !! l with
        | Some (OObject ps) =>
            (Normal (match props_get k ps with Some v => v | None => VUndefined end), h)
        | _ => (Normal VUndefined, h)
        end
    | VUndefined | VNull =>
        (Throw (TypeError ("Cannot read property " +:+ k)), h)
    | _ => (Normal VUndefined, h)
    end.

(** [o.k = v]: the property is set on an object; module code is strict, and
    the assignment throws on a value that is not an object. *)
Definition store_prop (o : value) (k : string) (v : value) : method store unit :=
  fun h =>
    match o with
    | VRef l =>
        match h !! l with
        | Some (OObject ps) => (Normal tt, <[l := OObject (props_set k v ps)]> h)
        | _ => (Normal tt, h)
        end
    | _ => (Throw (TypeError ("Cannot set property " +:+ k)), h)
    end.

(** The plain value a store value stands for: references are followed, to
    the depth given. *)
Fixpoint reify (depth : nat) (h : store) (v : value) : JsValue :=
  match v with
  | VUndefined => JsUndefined
  | VNull => JsNull
  | VBool b => JsBool b
  | VNumber n => JsNumber n
  | VString s => JsString s
  | VRef l =>
      match depth with
      | 0 => JsUndefined
      | S depth =>
          match h !! l with
          | Some (OObject ps) => JsObject (map (fun kv => (kv.1, reify depth h kv.2)) ps)
          | Some (OArray elems) => JsArray (map (reify depth h) elems)
          | None => JsUndefined
          end
      end
  end.

(** A method leaves the objects in place when every object of the store it
    starts from is still there, unchanged, when it ends. *)
Definition preserves {A : Type} (m : method store A) : Prop :=
  forall h : store, h ⊆ (m h).2.

(** [keeps h0 m]: run from any store that extends [h0], the method ends in
    a store that extends [h0]. *)
Definition keeps {A : Type} (h0 : store) (m : method store A) : Prop :=
  forall h : store, h0 ⊆ h -> h0 ⊆ (m h).2.

(** [triple P m Q E]: run from a store that satisfies [P], the method either
    returns a value and leaves a store that satisfy [Q], or throws and leaves
    a store that satisfies [E]. *)
Definition triple {A : Type} (P : store -> Prop) (m : method store A)
  (Q : A -> store -> Prop) (E : store -> Prop) : Prop :=
  forall h : store, P h ->
    match m h with
    | (Normal a, h') => Q a h'
    | (Throw _, h') => E h'
    end.

(** The store holds, at [l], an object whose properties satisfy [P]. *)
Definition object_at (l : loc) (P : list (string * value) -> Prop) (h : store) : Prop :=
  exists ps, h !! l = Some (OObject ps) /\ P ps.

(** While a Role or its serialized form is being filled in at [l]: the store
    extends [h0], [l] was not in [h0], and a reference the object at [l] holds
    under [aclKey] was not in [h0] either. *)
Definition filling (h0 : store) (l : loc) (h : store) : Prop :=
  h0 ⊆ h /\ h0 !! l = None
  /\ object_at l
       (fun ps => forall a, props_get "aclKey" ps = Some (VRef a) -> h0 !! a = None) h.

End Store.

(** What models/Role uses of the Principal class and of Immutable.js, on the
    store: [principal.toObject()], [fromJS(value)] and [value.hashCode()] are
    parameters. *)
Class StoreImports : Type := {
  principal_toObject : Store.value -> method Store.store Store.value;
  fromJS : Store.value -> method Store.store Store.value;
  hashCode : Store.value -> method Store.store Z;
}.

(** The imported operations leave the existing objects in place:
    [principal.toObject()] and [fromJS(value)] make new objects;
    [hashCode()], which may record the hash in the collection it is called on,
    does so when called on the collection [fromJS(value)] has just made. *)
Definition imports_preserve `{StoreImports} : Prop :=
  (forall p, Store.preserves (principal_toObject p))
  /\ (forall v, Store.preserves (fromJS v))
  /\ (forall v, Store.preserves (bind (fromJS v) hashCode)).

(** ** class Role, on the store *)

Module RoleInstance.
Section RoleInstance.
Context `{GlobalConstants} `{StoreImports}.
Import Store.

Local Open Scope method_scope.

(** [new Role(role)]: the instance is allocated with the fields the class
    declares, each holding [undefined], and the constructor assigns its
    properties. *)
Definition constructor (role : value) : method store value :=
  l <- alloc (OObject [("aclKey", VUndefined); ("description", VUndefined);
                       ("id", VUndefined); ("organizationId", VUndefined);
                       ("principal", VUndefined); ("title", VUndefined)]) ;;
  let this := VRef l in
  (* required properties *)
  role_organizationId <- load role "organizationId" ;;
  store_prop this "organizationId" role_organizationId ;;
  role_principal <- load role "principal" ;;
  store_prop this "principal" role_principal ;;
  role_title <- load role "title" ;;
  store_prop this "title" role_title ;;
  store_prop this AT_CLASS (VString Role.ROLE_CLASS_PACKAGE) ;;
  (* optional properties *)
  role_description <- load role "description" ;;
  (if isDefined role_description
   then
     role_description <- load role "description" ;;
     store_prop this "description" role_description
   else ret tt) ;;
  role_id <- load role "id" ;;
  (if isDefined role_id
   then
     role_organizationId <- load role "organizationId" ;;
     role_id <- load role "id" ;;
     aclKey <- alloc (OArray [role_organizationId; role_id]) ;;
     store_prop this "aclKey" (VRef aclKey) ;;
     role_id <- load role "id" ;;
     store_prop this "id" role_id
   else ret tt) ;;
  ret this.

Definition toObject (this : value) : method store value :=
  (* required properties *)
  this_organizationId <- load this "organizationId" ;;
  this_principal <- load this "principal" ;;
  principalObj <- principal_toObject this_principal ;;
  this_title <- load this "title" ;;
  l <- alloc (OObject [("organizationId", this_organizationId);
                       ("principal", principalObj);
                       ("title", this_title)]) ;;
  let roleObj := VRef l in
  store_prop roleObj AT_CLASS (VString Role.ROLE_CLASS_PACKAGE) ;;
  (* optional properties *)
  this_description <- load this "description" ;;
  (if isDefined this_description
   then
     this_description <- load this "description" ;;
     store_prop roleObj "description" this_description
   else ret tt) ;;
  this_id <- load this "id" ;;
  (if isDefined this_id
   then
     this_organizationId <- load this "organizationId" ;;
     this_id <- load this "id" ;;
     aclKey <- alloc (OArray [this_organizationId; this_id]) ;;
     store_prop roleObj "aclKey" (VRef aclKey) ;;
     this_id <- load this "id" ;;
     store_prop roleObj "id" this_id
   else ret tt) ;;
  ret roleObj.

Definition toImmutable (this : value) : method store value :=
  roleObj <- toObject this ;;
  fromJS roleObj.

Definition valueOf (this : value) : method store Z :=
  immutable <- toImmutable this ;;
  hashCode immutable.

End RoleInstance.
End RoleInstance.

(** ** utils/Logger *)

Module Logger.

(** [LOG_LEVELS] *)
Inductive LogLevel : Type := TRACE | DEBUG | INFO | WARN | ERROR.

Definition LOG_LEVELS (level : LogLevel) : string :=
  match level with
  | TRACE => "trace"
  | DEBUG => "debug"
  | INFO => "info"
  | WARN => "warn"
  | ERROR => "error"
  end.

(** [String.prototype.toUpperCase], on the letters a to z. *)
Definition ascii_toUpperCase (c : ascii) : ascii :=
  let n := nat_of_ascii c in
  if (97 <=? n) && (n <=? 122) then ascii_of_nat (n - 32) else c.

Fixpoint toUpperCase (s : string) : string :=
  match s with
  | EmptyString => EmptyString
  | String c rest => String (ascii_toUpperCase c) (toUpperCase rest)
  end.

(** What is handed to the logger: a plain value, or an Error. *)
Inductive LogValue : Type :=
| Plain (v : JsValue)
| ErrorObject (e : JsError).

(** [_.isError(value)] *)
Definition isError (value : LogValue) : bool :=
  match value with ErrorObject _ => true | Plain _ => false end.

(** [_.isEmpty(value)]; an Error has no enumerable property of its own. *)
Definition isEmpty (value : LogValue) : bool :=
  match value with
  | Plain v => lodash.isEmpty v
  | ErrorObject _ => true
  end.

(** The function of this name local to utils/Logger.js. *)
Definition isNonEmptyString (value : LogValue) : bool :=
  match value with
  | Plain v => lodash.isString v && negb (lodash.isEmpty v)
  | ErrorObject _ => false
  end.

(** [getMessagePrefix(loggerLevel, loggerName)]; [now] is what
    [moment().format(TIMESTAMP_FORMAT)] returns when it is called. *)
Definition getMessagePrefix (now : string) (loggerLevel : string) (loggerName : string)
  : string :=
  "[" +:+ now +:+ " " +:+ toUpperCase loggerLevel +:+ " " +:+ loggerName +:+ "]".

(** A call [this.logger[logLevel](...arguments)] made on the loglevel
    logger. *)
Record LoggerCall : Type := {
  level : LogLevel;
  arguments : list LogValue;
}.

Record Logger : Type := { name : string }.

(** The text of a string, for a template literal that interpolates it. *)
Definition text_of (value : LogValue) : string :=
  match value with
  | Plain (JsString s) => s
  | _ => EmptyString
  end.

(** [log(logLevel, message, ...args)], as the calls it makes, in order. *)
Definition log (now : string) (this : Logger) (logLevel : LogLevel) (message : LogValue)
  (args : list LogValue) : list LoggerCall :=
  let messagePrefix := getMessagePrefix now (LOG_LEVELS logLevel) (name this) in
  (if isNonEmptyString message
   then
     [ {| level := logLevel;
          arguments := [Plain (JsString (messagePrefix +:+ " - " +:+ text_of message))] |} ]
   else
     {| level := logLevel; arguments := [Plain (JsString messagePrefix)] |}
     :: (if negb (String.eqb (LOG_LEVELS logLevel) (LOG_LEVELS TRACE))
         then
           if isError message || negb (isEmpty message)
           then [ {| level := logLevel; arguments := [message] |} ]
           else []
         else []))
  ++ (if (0 <? length args)%nat
      then [ {| level := logLevel; arguments := args |} ]
      else []).

Definition trace (now : string) (this : Logger) (message : LogValue) : list LoggerCall :=
  log now this TRACE message [].

Definition debug (now : string) (this : Logger) (message : LogValue) (args : list LogValue)
  : list LoggerCall :=
  log now this DEBUG message args.

Definition info (now : string) (this : Logger) (message : LogValue) (args : list LogValue)
  : list LoggerCall :=
  log now this INFO message args.

Definition warn (now : string) (this : Logger) (message : LogValue) (args : list LogValue)
  : list LoggerCall :=
  log now this WARN message args.

Definition error (now : string) (this : Logger) (message : LogValue) (args : list LogValue)
  : list LoggerCall :=
  log now this ERROR message args.

End Logger.

(** ** An instance of the parameters *)

(** A UUID validator, a Principal class, a Permission enumeration and the
    store operations, on which the model runs on the mock data of
    models/Role ([ROLE_MOCK]). *)
Module Sample.

Definition is_hex_digit (c : ascii) : bool :=
  let n := nat_of_ascii c in
  ((48 <=? n) && (n <=? 57)) || ((97 <=? n) && (n <=? 102)) || ((65 <=? n) && (n <=? 70)).

Definition is_dash (c : ascii) : bool := nat_of_ascii c =? 45.

(** Groups of 8, 4, 4, 4 and 12 hexadecimal digits separated by dashes. *)
Fixpoint uuid_groups (groups : list nat) (s : list ascii) : bool :=
  match groups with
  | [] => false
  | [n] => bool_decide (length s = n) && forallb is_hex_digit s
  | n :: rest =>
      bool_decide (n < length s) && forallb is_hex_digit (take n s)
      && match drop n s with
         | c :: tail => is_dash c && uuid_groups rest tail
         | [] => false
         end
  end.

Definition uuid : UUIDValidator :=
  {| isValidUUID v :=
       match v with
       | JsString s => uuid_groups [8; 4; 4; 4; 12] (String.list_ascii_of_string s)
       | _ => false
       end |}.

Record SamplePrincipal : Type := { principal_id : string; principal_type : string }.

Definition PrincipalTypes : list string := ["ORGANIZATION"; "ROLE"; "USER"].

Definition principals : PrincipalModule :=
  {| Principal := SamplePrincipal;
     PrincipalBuilder_build value :=
       match get_prop value "id", get_prop value "type" with
       | JsString (String c i), JsString t =>
           if bool_decide (t ∈ PrincipalTypes)
           then Normal {| principal_id := String c i; principal_type := t |}
           else Throw (Error "invalid parameter: type must be a valid PrincipalType")
       | _, _ => Throw (Error "invalid parameter: id must be a non-empty string")
       end;
     Principal_toObject p :=
       JsObject [("id", JsString (principal_id p)); ("type", JsString (principal_type p))] |}.

Definition constants : GlobalConstants := {| AT_CLASS := "@class" |}.

Definition permissions : PermissionTypesModule :=
  {| PermissionTypes := ["DISCOVER"; "LINK"; "OWNER"; "READ"; "WRITE"] |}.

Definition store_imports : StoreImports :=
  {| principal_toObject p :=
       bind (Store.load p "id") (fun p_id =>
       bind (Store.load p "type") (fun p_type =>
       bind (Store.alloc (Store.OObject [("id", p_id); ("type", p_type)])) (fun l =>
       ret (Store.VRef l))));
     fromJS value :=
       bind (Store.alloc (Store.OObject [("source", value)])) (fun l => ret (Store.VRef l));
     hashCode value :=
       bind (Store.store_prop value "__hash" (Store.VNumber 0)) (fun _ => ret 0%Z) |}.

(** [ROLE_MOCK], as the builder fields it is built from. *)
Definition MOCK_DESCRIPTION : JsValue := JsString "MockOrgRoleDescription".
Definition MOCK_ID : JsValue := JsString "66da9306-3d1d-49d7-a8ee-8515c9c28434".
Definition MOCK_ORGANIZATION_ID : JsValue := JsString "a77a0f9a-0e6f-4a98-a169-4d1e122b39a3".
Definition MOCK_PRINCIPAL : JsValue :=
  JsObject [("id", JsString "MockOrgRolePrincipalId"); ("type", JsString "ROLE")].
Definition MOCK_TITLE : JsValue := JsString "MockOrgRoleTitle".

Section Mock.
#[local] Existing Instance uuid.
#[local] Existing Instance principals.
#[local] Existing Instance constants.
#[local] Existing Instance store_imports.
Import RoleBuilder.

(** The builder of [ROLE_MOCK] after its five setter calls. *)
Definition MOCK_BUILDER : RoleBuilder :=
  after (SetTitle MOCK_TITLE)
    (after (SetPrincipal MOCK_PRINCIPAL)
       (after (SetOrganizationId MOCK_ORGANIZATION_ID)
          (after (SetId MOCK_ID)
             (after (SetDescription MOCK_DESCRIPTION) empty)))).

(** A builder on which the three required properties were set, and no id. *)
Definition MOCK_BUILDER_WITHOUT_ID : RoleBuilder :=
  after (SetTitle MOCK_TITLE)
    (after (SetPrincipal MOCK_PRINCIPAL)
       (after (SetOrganizationId MOCK_ORGANIZATION_ID) empty)).

Definition MOCK_ROLE_PRINCIPAL : SamplePrincipal :=
  {| principal_id := "MockOrgRolePrincipalId"; principal_type := "ROLE" |}.

Definition ROLE_MOCK : Role.Role :=
  Role.constructor MOCK_DESCRIPTION MOCK_ID MOCK_ORGANIZATION_ID MOCK_ROLE_PRINCIPAL MOCK_TITLE.

(** [ROLE_MOCK] in the store: its principal, the argument of the constructor
    and the instance the constructor makes. *)
Definition ROLE_MOCK_in_store : completion Store.value * Store.store :=
  let new_role : method Store.store Store.value :=
    bind (Store.alloc (Store.OObject [("id", Store.VString "MockOrgRolePrincipalId");
                                      ("type", Store.VString "ROLE")])) (fun principal =>
    bind (Store.alloc (Store.OObject
            [("description", Store.VString "MockOrgRoleDescription");
             ("id", Store.VString "66da9306-3d1d-49d7-a8ee-8515c9c28434");
             ("organizationId", Store.VString "a77a0f9a-0e6f-4a98-a169-4d1e122b39a3");
             ("principal", Store.VRef principal);
             ("title", Store.VString "MockOrgRoleTitle")])) (fun role =>
    RoleInstance.constructor (Store.VRef role))) in
  new_role ∅.

End Mock.

End Sample.

(** * Properties *)

(** ** Values and property lists *)

(** Strings of white space only are no non-empty strings, whether the white
    space is of ASCII or, as the no-break space, beyond it. *)
Example isNonEmptyString_blank :
  LangUtils.isNonEmptyString (JsString "title") = true
  /\ LangUtils.isNonEmptyString (JsString " a title ") = true
  /\ LangUtils.isNonEmptyString (JsString EmptyString) = false
  /\ LangUtils.isNonEmptyString (JsString "   ") = false
  /\ LangUtils.isNonEmptyString
       (JsString (String (ascii_of_nat 9) (String (ascii_of_nat 10) EmptyString))) = false
  /\ LangUtils.isNonEmptyString
       (JsString (String (ascii_of_nat 194) (String (ascii_of_nat 160) EmptyString))) = false
  /\ LangUtils.isNonEmptyString (JsNumber 1) = false.
Proof. repeat split. Qed.

Lemma isNonEmptyString_truthy (v : JsValue) :
  LangUtils.isNonEmptyString v = true -> truthy v = true.
Proof. destruct v as [| | | |[|c s]| |]; simpl; try discriminate; done. Qed.

Lemma isNonEmptyString_defined (v : JsValue) :
  LangUtils.isNonEmptyString v = true -> LangUtils.isDefined v = true.
Proof. destruct v; simpl; try discriminate; done. Qed.

Lemma isNonEmptyString_inv (v : JsValue) :
  LangUtils.isNonEmptyString v = true -> exists c s, v = JsString (String c s).
Proof. destruct v as [| | | |[|c s]| |]; simpl; try discriminate; eauto. Qed.

Lemma AT_CLASS_apart_eqb `{GlobalConstants} (k : string) :
  AT_CLASS_apart -> k ∈ role_property_names ->
  String.eqb AT_CLASS k = false /\ String.eqb k AT_CLASS = false.
Proof.
  intros Hapart Hk. split; apply String.eqb_neq; intros Heq; apply Hapart; subst k; exact Hk.
Qed.

(** The comparisons of [AT_CLASS] with the six property names, as
    hypotheses. *)
Ltac apart_facts Hapart :=
  let use k :=
    (let Hk := fresh "Hk" in
     assert (Hk : k ∈ role_property_names) by (apply list_elem_of_In; simpl; tauto);
     pose proof (proj1 (AT_CLASS_apart_eqb k Hapart Hk));
     pose proof (proj2 (AT_CLASS_apart_eqb k Hapart Hk)); clear Hk) in
  use "organizationId"; use "principal"; use "title";
  use "description"; use "aclKey"; use "id".

(** Decides the comparisons of property names met in the goal. *)
Ltac eval_eqb :=
  repeat match goal with
  | Heq : String.eqb ?a ?b = false |- context [String.eqb ?a ?b] => rewrite Heq
  | |- context [String.eqb ?a ?b] =>
      let v := eval vm_compute in (String.eqb a b) in
      match v with true => idtac | false => idtac end;
      change (String.eqb a b) with v
  end.

Ltac props_step := cbn [assoc_set assoc_get app get_prop has_prop]; eval_eqb; cbv iota.

(** ** Role and RoleBuilder *)

Section RoleBuilder_facts.
Context `{UUIDValidator} `{PrincipalModule} `{GlobalConstants}.
Import RoleBuilder.

Lemma empty_validated : validated empty.
Proof. repeat split; try (by left). intros p [=]. Qed.

Lemma after_validated (c : call) (this : RoleBuilder) :
  validated this -> validated (after c this).
Proof.
  intros Hv. pose proof Hv as (Hd & Hi & Ho & Ht & Hp).
  destruct c as [v|v|v|v|v|]; simpl.
  - unfold setDescription.
    destruct (negb (LangUtils.isDefined v) || LangUtils.isEmptyString v); [exact Hv|].
    destruct (LangUtils.isNonEmptyString v) eqn:E; simpl; [|exact Hv].
    repeat split; auto.
  - unfold setId.
    destruct (LangUtils.isDefined v) eqn:E1; simpl; [|exact Hv].
    destruct (LangUtils.isEmptyString v) eqn:E2; simpl; [exact Hv|].
    destruct (isValidUUID v) eqn:E3; simpl; [|exact Hv].
    repeat split; auto.
  - unfold setOrganizationId.
    destruct (isValidUUID v) eqn:E3; simpl; [|exact Hv].
    repeat split; auto.
  - unfold setPrincipal.
    destruct (PrincipalBuilder_build v) as [p|e] eqn:E; simpl; [|exact Hv].
    repeat split; auto. intros p' [= <-]. eauto.
  - unfold setTitle.
    destruct (LangUtils.isNonEmptyString v) eqn:E; simpl; [|exact Hv].
    repeat split; auto.
  - unfold build, bind, get_this.
    destruct (truthy (organizationId this)); simpl; [|exact Hv].
    destruct (principal this); simpl; [|exact Hv].
    destruct (truthy (title this)); simpl; exact Hv.
Qed.

(** The invariant of the builder, by induction on the calls made. *)
Lemma reachable_validated (this : RoleBuilder) : reachable this -> validated this.
Proof.
  induction 1 as [|c this _ IH]; [apply empty_validated | by apply after_validated].
Qed.

Lemma build_success (this : RoleBuilder) (p : Principal) :
  truthy (organizationId this) = true -> principal this = Some p ->
  truthy (title this) = true ->
  build this =
    (Normal (Role.constructor (description this) (id this) (organizationId this) p
               (title this)), this).
Proof.
  intros Ho Hp Ht. unfold build, bind, get_this. rewrite Ho, Hp, Ht. reflexivity.
Qed.

Lemma build_inv (this this' : RoleBuilder) (role : Role.Role) :
  build this = (Normal role, this') ->
  this' = this /\ truthy (organizationId this) = true /\ truthy (title this) = true
  /\ exists p, principal this = Some p
       /\ role = Role.constructor (description this) (id this) (organizationId this) p
                   (title this).
Proof.
  unfold build, bind, get_this.
  destruct (truthy (organizationId this)); simpl; [|discriminate].
  destruct (principal this) as [p|]; simpl; [|discriminate].
  destruct (truthy (title this)); simpl; [|discriminate].
  intros [= <- <-]. do 3 (split; [done|]). by exists p.
Qed.

(** C1. On a builder reached through the calls of the class: when
    organizationId, principal and title have been set, [build()] returns a
    Role that carries them, and the description and id that were set; when
    one of the three has not been set, [build()] throws an Error whose
    message names a required property that is missing. *)
Theorem RoleBuilder_build_required_properties (this : RoleBuilder) :
  UUIDs_truthy -> reachable this ->
  (forall p, organizationId this <> JsUndefined -> principal this = Some p ->
             title this <> JsUndefined ->
     exists role, build this = (Normal role, this)
       /\ Role.organizationId role = organizationId this
       /\ Role.principal role = p
       /\ Role.title role = title this
       /\ (description this <> JsUndefined ->
           Role.description role = description this)
       /\ (id this <> JsUndefined -> Role.id role = id this))
  /\ (forall property, unset property this ->
     exists missing, unset missing this
       /\ build this = (Throw (Error (missing_property (required_name missing))), this)).
Proof.
  intros Huuid Hreach.
  destruct (reachable_validated this Hreach) as (Hd & Hi & Ho & Ht & _). split.
  - intros p Ho' Hp Ht'.
    destruct Ho as [?|Ho]; [done|]. destruct Ht as [?|Ht]; [done|].
    eexists. split.
    { apply build_success; [by apply Huuid | done | by apply isNonEmptyString_truthy]. }
    simpl. repeat split.
    + intros Hd'. destruct Hd as [?|Hd]; [done|].
      by rewrite (isNonEmptyString_defined _ Hd).
    + intros Hi'. destruct Hi as [?|(Hi & _)]; [done|]. by rewrite Hi.
  - intros property Hunset. unfold build, bind, get_this.
    destruct (truthy (organizationId this)) eqn:Eo; simpl.
    2:{ exists OrganizationId. split; [|done]. simpl.
        destruct Ho as [?|Ho]; [done|]. apply Huuid in Ho. congruence. }
    destruct (principal this) as [p|] eqn:Ep; simpl.
    2:{ by exists PrincipalProperty. }
    destruct (truthy (title this)) eqn:Et; simpl.
    2:{ exists Title. split; [|done]. simpl.
        destruct Ht as [?|Ht]; [done|]. apply isNonEmptyString_truthy in Ht. congruence. }
    destruct property; simpl in Hunset.
    + rewrite Hunset in Eo. discriminate.
    + congruence.
    + rewrite Hunset in Et. discriminate.
Qed.

(** The properties of a serialized Role, in their order. *)
Lemma toObject_props (r : Role.Role) :
  AT_CLASS_apart ->
  Role.toObject r =
    JsObject
      ([("organizationId", Role.organizationId r);
        ("principal", Principal_toObject (Role.principal r));
        ("title", Role.title r);
        (AT_CLASS, JsString Role.ROLE_CLASS_PACKAGE)]
       ++ (if LangUtils.isDefined (Role.description r)
           then [("description", Role.description r)] else [])
       ++ (if LangUtils.isDefined (Role.id r)
           then [("aclKey", JsArray [Role.organizationId r; Role.id r]);
                 ("id", Role.id r)]
           else [])).
Proof.
  intros Hapart. apart_facts Hapart. unfold Role.toObject.
  destruct (LangUtils.isDefined (Role.description r));
    destruct (LangUtils.isDefined (Role.id r));
    repeat (progress props_step); reflexivity.
Qed.

(** C2, as amended. For a Role returned by [build()]: when an id was set, the
    instance and its [toObject()] carry the id and an aclKey equal to
    [[organizationId, id]]; when no id was set, the id and aclKey fields of
    the instance hold [undefined], and its [toObject()] has no id and no
    aclKey property. *)
Theorem Role_aclKey_follows_id (this this' : RoleBuilder) (role : Role.Role) :
  AT_CLASS_apart -> reachable this -> build this = (Normal role, this') ->
  (id this <> JsUndefined ->
     Role.id role = id this
     /\ Role.aclKey role = JsArray [organizationId this; id this]
     /\ get_prop (Role.toObject role) "id" = id this
     /\ get_prop (Role.toObject role) "aclKey" = JsArray [organizationId this; id this])
  /\ (id this = JsUndefined ->
     Role.id role = JsUndefined /\ Role.aclKey role = JsUndefined
     /\ has_prop (Role.toObject role) "id" = false
     /\ has_prop (Role.toObject role) "aclKey" = false).
Proof.
  intros Hapart Hreach Hbuild.
  destruct (reachable_validated this Hreach) as (_ & Hi & _ & _).
  destruct (build_inv _ _ _ Hbuild) as (_ & _ & _ & p & _ & ->).
  rewrite (toObject_props _ Hapart). apart_facts Hapart.
  unfold Role.constructor.
  cbn [Role.id Role.aclKey Role.description Role.organizationId Role.principal Role.title].
  split.
  - intros Hset. destruct Hi as [?|(Hi & _)]; [done|].
    rewrite !Hi. rewrite ?Hi.
    destruct (LangUtils.isDefined (description this)) eqn:Ed;
      rewrite ?Ed; repeat (progress props_step). all: done.
  - intros Hunset. rewrite !Hunset.
    change (LangUtils.isDefined JsUndefined) with false. cbv iota.
    change (LangUtils.isDefined JsUndefined) with false. cbv iota.
    destruct (LangUtils.isDefined (description this)) eqn:Ed;
      rewrite ?Ed; repeat (progress props_step); done.
Qed.

(** C9. A Role returned by [build()] is rebuilt from its serialized form:
    [new RoleBuilder(role.toObject())] returns a builder, [build()] on it
    returns a Role, and that Role serializes to the same object. *)
Theorem Role_round_trip (this this' : RoleBuilder) (role : Role.Role) :
  Principal_round_trip -> AT_CLASS_apart ->
  reachable this -> build this = (Normal role, this') ->
  exists builder role',
    constructor (Role.toObject role) = Normal builder
    /\ (build builder).1 = Normal role'
    /\ Role.toObject role' = Role.toObject role.
Proof.
  intros Hround Hapart Hreach Hbuild.
  destruct (reachable_validated this Hreach) as (Hd & Hi & Ho & Ht & Hbuilt).
  destruct (build_inv _ _ _ Hbuild) as (_ & Hto & Htt & p & Hp & ->).
  destruct (Hbuilt p Hp) as (value & Hvalue).
  destruct (Hround value p Hvalue) as (p' & Hp' & Hobj).
  destruct this as [d i o pr t]; simpl in *. subst pr.
  destruct Ho as [->|Ho]; [discriminate|].
  destruct Ht as [->|Ht]; [discriminate|].
  destruct (isNonEmptyString_inv _ Ht) as (ct & st & ->).
  exists {| description := d; id := i; organizationId := o; principal := Some p';
            title := JsString (String ct st) |}.
  exists (Role.constructor d i o p' (JsString (String ct st))).
  split; [|split].
  - rewrite (toObject_props _ Hapart). apart_facts Hapart.
    unfold constructor, Role.constructor.
    cbn [Role.id Role.aclKey Role.description Role.organizationId Role.principal Role.title].
    change (LangUtils.isDefined (JsObject ?ps)) with true. cbv iota.
    destruct Hd as [->|Hd]; [|destruct (isNonEmptyString_inv _ Hd) as (cd & sd & ->)];
      (destruct Hi as [->|(Hi1 & Hi2 & Hi3)]; [|rewrite ?Hi1]);
      cbn [LangUtils.isDefined lodash.isNull lodash.isUndefined negb andb];
      repeat (progress props_step);
      unfold bind, setDescription, setId, setOrganizationId, setPrincipal, setTitle;
      rewrite ?Hi1, ?Hi2, ?Hi3, ?Ho, ?Hp', ?Ht, ?Hd;
      cbn [negb orb andb fst snd LangUtils.isDefined LangUtils.isEmptyString
           lodash.isNull lodash.isUndefined lodash.isString lodash.isEmpty];
      rewrite ?Hi1, ?Hi2, ?Hi3, ?Ho, ?Hp', ?Ht, ?Hd;
      reflexivity.
  - simpl. unfold build, bind, get_this. simpl. by rewrite Hto.
  - rewrite !(toObject_props _ Hapart). simpl. by rewrite Hobj.
Qed.

End RoleBuilder_facts.

(** ** Immutable.Set *)

Section ImmutableSet_facts.
Import ImmutableSet.

Lemma elem_of_add (x value : JsValue) (set : t) :
  x ∈ add value set <-> x = value \/ x ∈ set.
Proof.
  unfold add. destruct (decide (value ∈ set)) as [Hin|Hnin].
  - split; [by right | intros [->|?]; done].
  - rewrite elem_of_app, list_elem_of_singleton. tauto.
Qed.

Lemma NoDup_add (value : JsValue) (set : t) : NoDup set -> NoDup (add value set).
Proof.
  intros Hnd. unfold add. destruct (decide (value ∈ set)) as [Hin|Hnin]; [done|].
  apply NoDup_app. split; [done|]. split; [|apply NoDup_singleton].
  intros x Hx ->%list_elem_of_singleton. done.
Qed.

Lemma elem_of_fold_add (values : list JsValue) (set : t) (x : JsValue) :
  x ∈ foldl (fun set value => add value set) set values <-> x ∈ set \/ x ∈ values.
Proof.
  revert set. induction values as [|v values IH]; intros set; simpl.
  - rewrite elem_of_nil. tauto.
  - rewrite IH, elem_of_add, elem_of_cons. tauto.
Qed.

Lemma NoDup_fold_add (values : list JsValue) (set : t) :
  NoDup set -> NoDup (foldl (fun set value => add value set) set values).
Proof.
  revert set. induction values as [|v values IH]; intros set Hnd; simpl; [done|].
  apply IH. by apply NoDup_add.
Qed.

Lemma elem_of_withMutations (values : list JsValue) (x : JsValue) :
  x ∈ withMutations_forEach_add values <-> x ∈ values.
Proof.
  unfold withMutations_forEach_add, empty. rewrite elem_of_fold_add, elem_of_nil. tauto.
Qed.

Lemma NoDup_withMutations (values : list JsValue) :
  NoDup (withMutations_forEach_add values).
Proof. apply NoDup_fold_add. apply NoDup_nil_2. Qed.

End ImmutableSet_facts.


(** ** AccessCheckBuilder *)

Section AccessCheckBuilder_facts.
Context `{UUIDValidator} `{PermissionTypesModule}.
Import AccessCheckBuilder.

Lemma setPermissions_valid (p : list JsValue) (this : AccessCheckBuilder) :
  ValidationUtils.isValidPermissionArray (JsArray p) = true ->
  setPermissions (JsArray p) this =
    (Normal tt, set_permissions (JsArray (ImmutableSet.withMutations_forEach_add p)) this).
Proof.
  intros Hvalid. unfold setPermissions. rewrite Hvalid.
  destruct p as [|x p]; [discriminate|]. reflexivity.
Qed.

Lemma isValidPermissionArray_Permutation (p p' : list JsValue) :
  p' ≡ₚ p -> ValidationUtils.isValidPermissionArray (JsArray p) = true ->
  ValidationUtils.isValidPermissionArray (JsArray p') = true.
Proof.
  intros Hperm Hvalid.
  assert (Hall : forallb ValidationUtils.isValidPermission p = true).
  { destruct p; [discriminate | exact Hvalid]. }
  assert (Hall' : forallb ValidationUtils.isValidPermission p' = true).
  { apply forallb_forall. intros x Hx. rewrite forallb_forall in Hall. apply Hall.
    apply list_elem_of_In. rewrite <- Hperm. by apply list_elem_of_In. }
  destruct p' as [|x p']; [|exact Hall'].
  apply Permutation_nil_l in Hperm. subst p. discriminate.
Qed.

(** C3. [setPermissions(p)] with a non-empty array of valid Permissions,
    followed by [build()], yields an AccessCheck whose permissions hold every
    element of [p] and hold it once; permuting [p] permutes them. *)
Theorem AccessCheckBuilder_permissions_distinct (p : list JsValue) (this : AccessCheckBuilder) :
  p <> [] -> ValidationUtils.isValidPermissionArray (JsArray p) = true ->
  exists q,
    (bind (setPermissions (JsArray p)) (fun _ => build) this).1
    = Normal {| AccessCheck.aclKey := if truthy (aclKey this) then aclKey this else JsArray [];
                AccessCheck.permissions := JsArray q |}
    /\ NoDup q
    /\ (forall x, x ∈ q <-> x ∈ p)
    /\ (forall p' accessCheck,
          p' ≡ₚ p ->
          (bind (setPermissions (JsArray p')) (fun _ => build) this).1 = Normal accessCheck ->
          exists q', AccessCheck.permissions accessCheck = JsArray q' /\ q' ≡ₚ q).
Proof.
  intros Hne Hvalid. exists (ImmutableSet.withMutations_forEach_add p).
  assert (Hrun : forall l, ValidationUtils.isValidPermissionArray (JsArray l) = true ->
    (bind (setPermissions (JsArray l)) (fun _ => build) this).1
    = Normal {| AccessCheck.aclKey := if truthy (aclKey this) then aclKey this else JsArray [];
                AccessCheck.permissions := JsArray (ImmutableSet.withMutations_forEach_add l) |}).
  { intros l Hl. unfold bind at 1. rewrite (setPermissions_valid _ _ Hl).
    unfold build, bind, get_this, set_permissions, assign, ret. simpl.
    destruct (truthy (aclKey this)); reflexivity. }
  split; [by apply Hrun|]. split; [apply NoDup_withMutations|].
  split; [apply elem_of_withMutations|].
  intros p' accessCheck Hperm Hres.
  rewrite (Hrun p' (isValidPermissionArray_Permutation _ _ Hperm Hvalid)) in Hres.
  injection Hres as <-. eexists. split; [reflexivity|].
  apply NoDup_Permutation; [apply NoDup_withMutations | apply NoDup_withMutations |].
  intros x. rewrite !elem_of_withMutations. by rewrite Hperm.
Qed.

(** C4, as amended. [build()] does not throw: a field that has not been set,
    or holds a value false in a condition, is given the empty array, on the
    builder and on the AccessCheck returned. *)
Theorem AccessCheckBuilder_build_defaults_unset_fields (this : AccessCheckBuilder.AccessCheckBuilder) :
  let aclKey := if truthy (AccessCheckBuilder.aclKey this)
                then AccessCheckBuilder.aclKey this else JsArray [] in
  let permissions := if truthy (AccessCheckBuilder.permissions this)
                     then AccessCheckBuilder.permissions this else JsArray [] in
  AccessCheckBuilder.build this =
    (Normal {| AccessCheck.aclKey := aclKey; AccessCheck.permissions := permissions |},
     {| AccessCheckBuilder.aclKey := aclKey; AccessCheckBuilder.permissions := permissions |}).
Proof.
  destruct this as [a p]. unfold AccessCheckBuilder.build, bind, get_this, assign, ret. simpl.
  destruct (truthy a) eqn:Ea; simpl; destruct (truthy p) eqn:Ep; simpl; reflexivity.
Qed.

End AccessCheckBuilder_facts.


(** C4, as stated, fails on a new builder: neither field is set and
    [build()] returns an AccessCheck. *)
Lemma AccessCheckBuilder_build_unset_counterexample :
  AccessCheckBuilder.aclKey AccessCheckBuilder.empty = JsUndefined
  /\ AccessCheckBuilder.permissions AccessCheckBuilder.empty = JsUndefined
  /\ AccessCheckBuilder.build AccessCheckBuilder.empty
     = (Normal {| AccessCheck.aclKey := JsArray []; AccessCheck.permissions := JsArray [] |},
        {| AccessCheckBuilder.aclKey := JsArray [];
           AccessCheckBuilder.permissions := JsArray [] |})
  /\ ~ (exists e, (AccessCheckBuilder.build AccessCheckBuilder.empty).1 = Throw e).
Proof.
  repeat split; try reflexivity. intros [e He]. discriminate He.
Qed.


(** ** Setters *)

Section Setters_facts.
Context `{UUIDValidator} `{PrincipalModule} `{PermissionTypesModule}.

(** C5. Called with a value that is defined, is not the empty string nor
    the empty array, and fails the setter's predicate, each guarded setter
    throws an Error with the message of its parameter and leaves the builder
    as it was. *)
Theorem setters_throw_on_invalid_value (value : JsValue) :
  LangUtils.isDefined value = true ->
  LangUtils.isEmptyString value = false ->
  LangUtils.isEmptyArray value = false ->
  (forall this, LangUtils.isNonEmptyString value = false ->
     RoleBuilder.setTitle value this = (Throw (Error RoleBuilder.invalid_title), this))
  /\ (forall this, isValidUUID value = false ->
     RoleBuilder.setOrganizationId value this
     = (Throw (Error RoleBuilder.invalid_organizationId), this))
  /\ (forall this, isValidUUID value = false ->
     RoleBuilder.setId value this = (Throw (Error RoleBuilder.invalid_id), this))
  /\ (forall this, LangUtils.isNonEmptyString value = false ->
     RoleBuilder.setDescription value this
     = (Throw (Error RoleBuilder.invalid_description), this))
  /\ (forall this, ValidationUtils.isValidUuidArray value = false ->
     AccessCheckBuilder.setAclKey value this
     = (Throw (Error AccessCheckBuilder.invalid_aclKey), this))
  /\ (forall this, ValidationUtils.isValidPermissionArray value = false ->
     AccessCheckBuilder.setPermissions value this
     = (Throw (Error AccessCheckBuilder.invalid_permissions), this)).
Proof.
  intros Hdef Hstr Harr.
  assert (Hundef : lodash.isUndefined value = false) by (by destruct value).
  repeat split; intros this Hinvalid.
  - unfold RoleBuilder.setTitle. by rewrite Hinvalid.
  - unfold RoleBuilder.setOrganizationId. by rewrite Hinvalid.
  - unfold RoleBuilder.setId. by rewrite Hdef, Hstr, Hinvalid.
  - unfold RoleBuilder.setDescription. by rewrite Hdef, Hstr, Hinvalid.
  - unfold AccessCheckBuilder.setAclKey. by rewrite Hundef, Harr, Hinvalid.
  - unfold AccessCheckBuilder.setPermissions. by rewrite Hundef, Harr, Hinvalid.
Qed.

(** C10. The setters of the optional fields return without throwing and
    leave the builder as it was when called with an absent or empty value. *)
Theorem optional_setters_skip_absent_values :
  (forall this,
     RoleBuilder.setDescription JsUndefined this = (Normal tt, this)
     /\ RoleBuilder.setDescription JsNull this = (Normal tt, this)
     /\ RoleBuilder.setDescription (JsString EmptyString) this = (Normal tt, this)
     /\ RoleBuilder.setId JsUndefined this = (Normal tt, this)
     /\ RoleBuilder.setId JsNull this = (Normal tt, this)
     /\ RoleBuilder.setId (JsString EmptyString) this = (Normal tt, this))
  /\ (forall this,
     AccessCheckBuilder.setAclKey JsUndefined this = (Normal tt, this)
     /\ AccessCheckBuilder.setAclKey (JsArray []) this = (Normal tt, this)
     /\ AccessCheckBuilder.setPermissions JsUndefined this = (Normal tt, this)
     /\ AccessCheckBuilder.setPermissions (JsArray []) this = (Normal tt, this)).
Proof. split; intros this; repeat split; reflexivity. Qed.

End Setters_facts.

(** ** Objects in the store *)

Section Store_facts.
Import Store.

Lemma keeps_preserves {A : Type} (m : method store A) :
  (forall h0, keeps h0 m) -> preserves m.
Proof. intros Hkeeps h. by apply Hkeeps. Qed.

Lemma preserves_keeps {A : Type} (h0 : store) (m : method store A) :
  preserves m -> keeps h0 m.
Proof. intros Hm h Hh. etrans; [exact Hh | apply Hm]. Qed.

Lemma keeps_ret {A : Type} (h0 : store) (a : A) : keeps h0 (ret a).
Proof. by intros h Hh. Qed.

Lemma keeps_bind {A B : Type} (h0 : store) (m : method store A) (k : A -> method store B)
  (Q : A -> Prop) :
  keeps h0 m ->
  (forall h a h', h0 ⊆ h -> m h = (Normal a, h') -> Q a) ->
  (forall a, Q a -> keeps h0 (k a)) ->
  keeps h0 (bind m k).
Proof.
  intros Hm HQ Hk h Hh. unfold bind. specialize (Hm h Hh).
  destruct (m h) as [[a|e] h'] eqn:E; simpl in *; [|done].
  apply (Hk a); [by eapply HQ | done].
Qed.

Lemma keeps_seq {A B : Type} (h0 : store) (m : method store A) (k : A -> method store B) :
  keeps h0 m -> (forall a, keeps h0 (k a)) -> keeps h0 (bind m k).
Proof. intros Hm Hk. apply (keeps_bind h0 m k (fun _ => True)); auto. Qed.

Lemma keeps_load (h0 : store) (o : value) (k : string) : keeps h0 (load o k).
Proof.
  intros h Hh. unfold load. destruct o as [| | | | |l]; simpl; try done.
  destruct (h !! l) as [[ps|elems]|]; done.
Qed.

Lemma keeps_alloc (h0 : store) (o : object) : keeps h0 (alloc o).
Proof.
  intros h Hh. unfold alloc. simpl. etrans; [exact Hh|].
  apply insert_subseteq. apply not_elem_of_dom. apply is_fresh.
Qed.

Lemma alloc_fresh (h0 h h' : store) (o : object) (l : loc) :
  h0 ⊆ h -> alloc o h = (Normal l, h') -> h0 !! l = None.
Proof.
  intros Hh [= <- _]. apply not_elem_of_dom. intros Hin.
  apply (is_fresh (dom h)). by apply (subseteq_dom h0 h).
Qed.

Lemma keeps_store_prop (h0 : store) (l : loc) (k : string) (v : value) :
  h0 !! l = None -> keeps h0 (store_prop (VRef l) k v).
Proof.
  intros Hl h Hh. unfold store_prop.
  destruct (h !! l) as [[ps|elems]|]; simpl; try done.
  by apply insert_subseteq_r.
Qed.

End Store_facts.

Section RoleInstance_facts.
Context `{GlobalConstants} `{StoreImports}.
Import Store RoleInstance.

Lemma keeps_toObject (h0 : store) (this : value) :
  imports_preserve -> keeps h0 (toObject this).
Proof.
  intros (Hprincipal & _ & _). unfold toObject.
  apply keeps_seq; [apply keeps_load|]. intros this_organizationId.
  apply keeps_seq; [apply keeps_load|]. intros this_principal.
  apply keeps_seq; [apply preserves_keeps, Hprincipal|]. intros principalObj.
  apply keeps_seq; [apply keeps_load|]. intros this_title.
  apply (keeps_bind h0 _ _ (fun l => h0 !! l = None));
    [apply keeps_alloc | intros h l h'; apply alloc_fresh |].
  intros l Hl.
  apply keeps_seq; [by apply keeps_store_prop|]. intros _.
  apply keeps_seq; [apply keeps_load|]. intros this_description.
  apply keeps_seq.
  { destruct (isDefined this_description); [|apply keeps_ret].
    apply keeps_seq; [apply keeps_load|]. intros ?. by apply keeps_store_prop. }
  intros _.
  apply keeps_seq; [apply keeps_load|]. intros this_id.
  apply keeps_seq; [|intros _; apply keeps_ret].
  destruct (isDefined this_id); [|apply keeps_ret].
  apply keeps_seq; [apply keeps_load|]. intros ?.
  apply keeps_seq; [apply keeps_load|]. intros ?.
  apply keeps_seq; [apply keeps_alloc|]. intros aclKey.
  apply keeps_seq; [by apply keeps_store_prop|]. intros _.
  apply keeps_seq; [apply keeps_load|]. intros ?. by apply keeps_store_prop.
Qed.

Lemma keeps_toImmutable (h0 : store) (this : value) :
  imports_preserve -> keeps h0 (toImmutable this).
Proof.
  intros Himports. unfold toImmutable.
  apply keeps_seq; [by apply keeps_toObject|]. intros roleObj.
  apply preserves_keeps. apply Himports.
Qed.

Lemma bind_assoc {S A B C : Type} (m : method S A) (f : A -> method S B)
  (g : B -> method S C) (this : S) :
  bind (bind m f) g this = bind m (fun a => bind (f a) g) this.
Proof. unfold bind. destruct (m this) as [[a|e] this']; reflexivity. Qed.

Lemma keeps_valueOf (h0 : store) (this : value) :
  imports_preserve -> keeps h0 (valueOf this).
Proof.
  intros Himports h Hh. unfold valueOf, toImmutable. rewrite bind_assoc.
  revert h Hh. apply keeps_seq; [by apply keeps_toObject|]. intros roleObj.
  apply preserves_keeps. apply Himports.
Qed.

(** C8. [toObject()], [toImmutable()] and [valueOf()] change no object that
    exists when they are called: every object of the store, the Role they are
    called on, its aclKey array and its principal among them, is found
    unchanged in the store they leave; so every property of the Role reads
    as before. *)
Theorem Role_methods_change_no_object (this : value) (h : store) :
  imports_preserve ->
  forall h', h' ∈ [(toObject this h).2; (toImmutable this h).2; (valueOf this h).2] ->
    (forall l o, h !! l = Some o -> h' !! l = Some o)
    /\ (forall l k, this = VRef l -> is_Some (h !! l) ->
          (load this k h').1 = (load this k h).1).
Proof.
  intros Himports h' Hh'.
  assert (Hsub : h ⊆ h').
  { rewrite !elem_of_cons, elem_of_nil in Hh'.
    destruct Hh' as [->|[->|[->|[]]]].
    - by apply keeps_toObject.
    - by apply keeps_toImmutable.
    - by apply keeps_valueOf. }
  split.
  - intros l o Hl. by eapply lookup_weaken.
  - intros l k -> [o Hl]. unfold load.
    rewrite (lookup_weaken _ _ _ _ Hl Hsub), Hl. by destruct o.
Qed.

End RoleInstance_facts.

(** ** API wrappers *)

Section Exports_facts.
Context `{UUIDValidator}.
Import Exports.

Ltac unfold_wrappers :=
  unfold LinkingApi.createLinkingEntityType, LinkingApi.linkEntitySets,
    LinkingApi.linkEntities, LinkingApi.setLinkedEntities,
    LinkingApi.removeLinkedEntities, LinkingApi.addLinkedEntities,
    LinkingApi.removeLinkedEntity,
    DataIntegrationApi.createEntityAndAssociationData,
    DataApi.getAllEntitiesOfType, DataApi.downloadAllEntitiesOfType,
    DataApi.getAllEntitiesOfTypes, DataApi.getAllEntitiesOfTypeInSet,
    DataApi.downloadAllEntitiesOfTypeInSet, DataApi.createEntity,
    api_DataApi.getEntitySetData, api_DataApi.getSelectedEntitySetData,
    api_DataApi.createEntityData,
    EntityDataModelApi.getEntityDataModel, EntityDataModelApi.getAllSchemas,
    EntityDataModelApi.getAllEntitySets, EntityDataModelApi.getAllEntityTypes,
    EntityDataModelApi.getAllPropertyTypes,
    EntityDataModelApi.getSchema, EntityDataModelApi.getAllSchemasInNamespace,
    EntityDataModelApi.createSchema, EntityDataModelApi.addEntityTypesToSchema,
    EntityDataModelApi.removeEntityTypesFromSchema,
    EntityDataModelApi.addPropertyTypesToSchema,
    EntityDataModelApi.removePropertyTypesFromSchema,
    EntityDataModelApi.createEntitySets, EntityDataModelApi.getEntityType,
    EntityDataModelApi.createEntityType, EntityDataModelApi.deleteEntityType,
    EntityDataModelApi.updatePropertyTypesForEntityType,
    EntityDataModelApi.getPropertyType,
    EntityDataModelApi.getAllPropertyTypesInNamespace,
    EntityDataModelApi.createPropertyType, EntityDataModelApi.deletePropertyType,
    all_of, rejects_invalid_parameter, requests;
  cbv zeta.

(** Names the arguments and the properties read from them, then goes through
    the outcomes of the tests made of them. *)
Ltac case_tests args :=
  repeat match goal with
    | |- context [arg ?n args] => generalize (arg n args); intro
    end;
  repeat match goal with
    | |- context [get_prop ?v ?k] => generalize (get_prop v k); intro
    end;
  repeat match goal with
    | |- context [?f ?v] =>
        match type of (f v) with bool => idtac end;
        match goal with x : JsValue |- _ => constr_eq v x end;
        destruct (f v) eqn:?; cbn [negb andb orb]
    end.

Ltac settle :=
  first
    [ discriminate
    | eexists; split; [reflexivity | reflexivity]
    | eexists; reflexivity
    | reflexivity ].

Lemma guarded_outcome :
  Forall (fun w => forall args,
            if accepts w args then requests (call w args)
            else rejects_invalid_parameter (call w args)) guarded.
Proof.
  unfold guarded.
  repeat (apply Forall_cons; split;
    [intros args; cbn [call accepts]; unfold_wrappers; case_tests args; settle |]).
  apply Forall_nil_2.
Qed.

Lemma guarded_on_entityTypeFqn_outcome :
  Forall (fun w => forall args,
            accepts w args = false -> rejects_invalid_parameter (call w args))
    guarded_on_entityTypeFqn.
Proof.
  unfold guarded_on_entityTypeFqn.
  repeat (apply Forall_cons; split;
    [intros args; cbn [call accepts]; unfold_wrappers; case_tests args; intros ?; settle |]).
  apply Forall_nil_2.
Qed.

Lemma unguarded_outcome :
  Forall (fun w => forall args, requests (call w args)) unguarded.
Proof.
  unfold unguarded.
  repeat (apply Forall_cons; split;
    [intros args; cbn [call accepts]; unfold_wrappers; settle |]).
  apply Forall_nil_2.
Qed.

(** The thirty-eight wrappers that return a Promise are all listed. *)
Example exports_listed :
  length guarded = 27 /\ length guarded_on_entityTypeFqn = 2 /\ length unguarded = 9.
Proof. repeat split. Qed.

Lemma rejected_not_requested (p : Promise) :
  rejects_invalid_parameter p -> ~ requests p.
Proof. intros (reason & -> & _) (request & Heq). discriminate Heq. Qed.

(** C6, as amended. A wrapper that guards its parameters returns a Promise
    rejected with an "invalid parameter" reason, and issues no request, whenever
    a guarded parameter fails its predicate, and issues its request when they
    all pass; the wrappers without a guard issue their request whatever they
    are given. *)
Theorem guarded_wrappers_reject_invalid_parameters (w : wrapper) (args : list JsValue) :
  (w ∈ guarded ++ guarded_on_entityTypeFqn -> accepts w args = false ->
     rejects_invalid_parameter (call w args) /\ ~ requests (call w args))
  /\ (w ∈ guarded -> accepts w args = true -> requests (call w args))
  /\ (w ∈ unguarded -> requests (call w args)).
Proof.
  split; [|split].
  - intros Hw Haccepts.
    assert (Hreject : rejects_invalid_parameter (call w args)).
    { apply elem_of_app in Hw as [Hw|Hw].
      + pose proof (proj1 (Forall_forall _ _) guarded_outcome w Hw args) as Hout.
        by rewrite Haccepts in Hout.
      + by apply (proj1 (Forall_forall _ _) guarded_on_entityTypeFqn_outcome w Hw args). }
    split; [done | by apply rejected_not_requested].
  - intros Hw Haccepts.
    pose proof (proj1 (Forall_forall _ _) guarded_outcome w Hw args) as Hout.
    by rewrite Haccepts in Hout.
  - intros Hw. by apply (proj1 (Forall_forall _ _) unguarded_outcome w Hw args).
Qed.

End Exports_facts.

(** C6, as stated, fails on [getAllEntitiesOfTypes]: given [undefined], which
    is no array of fully qualified names, it rejects nothing and issues its
    request. *)
Lemma unguarded_wrapper_counterexample :
  let entityTypeFqns := JsUndefined in
  Exports.all_of FullyQualifiedName.isValidFqnObjectLiteral entityTypeFqns = false
  /\ DataApi.getAllEntitiesOfTypes entityTypeFqns
     = Requested {| api := DATA_API; verb := PUT;
                    url := [Lit "/"; Lit "entitydata"; Lit "/"; Lit "multiple"];
                    argument := Some JsUndefined |}
  /\ ~ Exports.rejects_invalid_parameter (DataApi.getAllEntitiesOfTypes entityTypeFqns).
Proof.
  repeat split. intros (reason & Heq & _). discriminate Heq.
Qed.

(** For a valid [entityTypeFqn], the two wrappers reject on [entitySetName]
    exactly when it is a non-empty string. *)
Lemma entitySetName_guard (entityTypeFqn entitySetName fileType : JsValue) :
  FullyQualifiedName.isValidFqnObjectLiteral entityTypeFqn = true ->
  (DataApi.getAllEntitiesOfTypeInSet entityTypeFqn entitySetName
   = Rejected DataApi.invalid_entitySetName
   <-> LangUtils.isNonEmptyString entitySetName = true)
  /\ (DataApi.downloadAllEntitiesOfTypeInSet entityTypeFqn entitySetName fileType
      = Rejected DataApi.invalid_entitySetName
      <-> LangUtils.isNonEmptyString entitySetName = true).
Proof.
  intros Hfqn.
  unfold DataApi.getAllEntitiesOfTypeInSet, DataApi.downloadAllEntitiesOfTypeInSet.
  rewrite Hfqn. simpl.
  destruct (LangUtils.isNonEmptyString entitySetName); split; split; done.
Qed.

(** C7. The code at the example of its own documentation: the entity set name
    [MyEntityCollection], a non-empty string, is rejected by both wrappers
    with the message that it must be a non-empty string, and [undefined] is
    let through to the request. *)
Lemma entitySetName_guard_inverted :
  let entityTypeFqn := JsObject [("namespace", JsString "LOOM"); ("name", JsString "MyEntity")] in
  let entitySetName := JsString "MyEntityCollection" in
  FullyQualifiedName.isValidFqnObjectLiteral entityTypeFqn = true
  /\ LangUtils.isNonEmptyString entitySetName = true
  /\ DataApi.getAllEntitiesOfTypeInSet entityTypeFqn entitySetName
     = Rejected "invalid parameter: entitySetName must be a non-empty string"
  /\ DataApi.downloadAllEntitiesOfTypeInSet entityTypeFqn entitySetName (JsString "json")
     = Rejected "invalid parameter: entitySetName must be a non-empty string"
  /\ LangUtils.isNonEmptyString JsUndefined = false
  /\ DataApi.getAllEntitiesOfTypeInSet entityTypeFqn JsUndefined
     = Requested {| api := DATA_API; verb := GET;
                    url := [Lit "/"; Lit "entitydata"; Lit "/"; Interp (JsString "LOOM");
                            Lit "/"; Interp (JsString "MyEntity"); Lit "/";
                            Interp JsUndefined];
                    argument := None |}.
Proof. repeat split. Qed.

(** ** The properties on [ROLE_MOCK] *)

Section Sample_facts.
#[local] Existing Instance Sample.uuid.
#[local] Existing Instance Sample.principals.
#[local] Existing Instance Sample.constants.
#[local] Existing Instance Sample.permissions.
#[local] Existing Instance Sample.store_imports.

Lemma Sample_UUIDs_truthy : UUIDs_truthy.
Proof.
  intros v. destruct v as [| | | |[|c s]| |]; simpl; try discriminate; done.
Qed.

Lemma Sample_AT_CLASS_apart : AT_CLASS_apart.
Proof.
  unfold AT_CLASS_apart, role_property_names. simpl.
  rewrite !not_elem_of_cons. repeat split; try discriminate. apply not_elem_of_nil.
Qed.

Lemma Sample_Principal_round_trip : Principal_round_trip.
Proof.
  intros value p. simpl.
  destruct (get_prop value "id") as [| | | |[|c i]| |]; try discriminate.
  destruct (get_prop value "type") as [| | | |t| |]; try discriminate.
  destruct (bool_decide (t ∈ Sample.PrincipalTypes)) eqn:Et; [|discriminate].
  intros [= <-]. exists {| Sample.principal_id := String c i; Sample.principal_type := t |}.
  simpl. by rewrite Et.
Qed.

Lemma Sample_imports_preserve : imports_preserve.
Proof.
  split; [|split].
  - intros p. apply keeps_preserves. intros h0. simpl.
    apply keeps_seq; [apply keeps_load|]. intros p_id.
    apply keeps_seq; [apply keeps_load|]. intros p_type.
    apply keeps_seq; [apply keeps_alloc|]. intros l. apply keeps_ret.
  - intros v. apply keeps_preserves. intros h0. simpl.
    apply keeps_seq; [apply keeps_alloc|]. intros l. apply keeps_ret.
  - intros v. apply keeps_preserves. intros h0 h Hh. simpl. rewrite bind_assoc.
    revert h Hh.
    apply (keeps_bind h0 _ _ (fun l => h0 !! l = None));
      [apply keeps_alloc | intros h l h'; apply alloc_fresh |].
    intros l Hl h Hh. unfold bind at 1. simpl. revert h Hh.
    apply keeps_seq; [by apply keeps_store_prop|]. intros _. apply keeps_ret.
Qed.

Lemma MOCK_BUILDER_reachable : RoleBuilder.reachable Sample.MOCK_BUILDER.
Proof. unfold Sample.MOCK_BUILDER. repeat apply RoleBuilder.reachable_call. constructor. Qed.

Lemma MOCK_BUILDER_build :
  RoleBuilder.build Sample.MOCK_BUILDER = (Normal Sample.ROLE_MOCK, Sample.MOCK_BUILDER).
Proof. vm_compute. reflexivity. Qed.

(** On [ROLE_MOCK], the method [toObject] run on the store returns a
    reference to the object the function [Role.toObject] computes. *)
Example ROLE_MOCK_toObject_agree :
  match Sample.ROLE_MOCK_in_store with
  | (Normal this, h) =>
      match RoleInstance.toObject this h with
      | (Normal roleObj, h') => Store.reify 2 h' roleObj = Role.toObject Sample.ROLE_MOCK
      | _ => False
      end
  | _ => False
  end.
Proof. vm_compute. reflexivity. Qed.

(** [new RoleBuilder(ROLE_MOCK.toObject())] is the builder of [ROLE_MOCK]. *)
Example ROLE_MOCK_constructor :
  RoleBuilder.constructor (Role.toObject Sample.ROLE_MOCK) = Normal Sample.MOCK_BUILDER.
Proof. vm_compute. reflexivity. Qed.

Lemma RoleBuilder_build_required_properties_witness :
  (exists role, RoleBuilder.build Sample.MOCK_BUILDER = (Normal role, Sample.MOCK_BUILDER)
                /\ Role.title role = Sample.MOCK_TITLE)
  /\ (exists missing,
        RoleBuilder.build RoleBuilder.empty
        = (Throw (Error (RoleBuilder.missing_property (RoleBuilder.required_name missing))),
           RoleBuilder.empty)).
Proof.
  split.
  - destruct (proj1 (RoleBuilder_build_required_properties Sample.MOCK_BUILDER
                       Sample_UUIDs_truthy MOCK_BUILDER_reachable)
                Sample.MOCK_ROLE_PRINCIPAL)
      as (role & Hbuild & _ & _ & Htitle & _).
    + vm_compute. discriminate.
    + vm_compute. reflexivity.
    + vm_compute. discriminate.
    + exists role. split; [exact Hbuild | exact Htitle].
  - destruct (proj2 (RoleBuilder_build_required_properties RoleBuilder.empty
                       Sample_UUIDs_truthy RoleBuilder.reachable_new)
                RoleBuilder.Title)
      as (missing & _ & Hthrow).
    + reflexivity.
    + exists missing. exact Hthrow.
Defined.

(** C2, as stated, fails on a builder that was given no id: the Role it
    builds has the fields aclKey and id all the same, as the class declares
    them, and they hold [undefined]. *)
Lemma Role_without_id_counterexample :
  RoleBuilder.id Sample.MOCK_BUILDER_WITHOUT_ID = JsUndefined
  /\ exists role,
       RoleBuilder.build Sample.MOCK_BUILDER_WITHOUT_ID
       = (Normal role, Sample.MOCK_BUILDER_WITHOUT_ID)
       /\ Role.has_own_property role "aclKey" = true
       /\ Role.has_own_property role "id" = true
       /\ Role.aclKey role = JsUndefined
       /\ Role.id role = JsUndefined
       /\ ~ (Role.has_own_property role "aclKey" = false
             /\ Role.has_own_property role "id" = false).
Proof.
  split; [reflexivity|]. eexists. split; [vm_compute; reflexivity|].
  repeat split; try (vm_compute; reflexivity).
  intros [Hnone _]. vm_compute in Hnone. discriminate Hnone.
Qed.

(** The same in the store: the instance [new Role(role)] makes of an argument
    without id has the properties aclKey and id, holding [undefined]. *)
Example Role_without_id_in_store :
  match bind (Store.alloc
                (Store.OObject
                   [("description", Store.VUndefined);
                    ("id", Store.VUndefined);
                    ("organizationId", Store.VString "a77a0f9a-0e6f-4a98-a169-4d1e122b39a3");
                    ("principal", Store.VString "principal");
                    ("title", Store.VString "MockOrgRoleTitle")]))
             (fun role => RoleInstance.constructor (Store.VRef role)) ∅ with
  | (Normal this, h) =>
      has_prop (Store.reify 1 h this) "aclKey" = true
      /\ has_prop (Store.reify 1 h this) "id" = true
      /\ get_prop (Store.reify 1 h this) "aclKey" = JsUndefined
      /\ get_prop (Store.reify 1 h this) "id" = JsUndefined
  | _ => False
  end.
Proof. vm_compute. repeat split. Qed.

Lemma Role_aclKey_follows_id_witness :
  Role.aclKey Sample.ROLE_MOCK = JsArray [Sample.MOCK_ORGANIZATION_ID; Sample.MOCK_ID]
  /\ get_prop (Role.toObject Sample.ROLE_MOCK) "aclKey"
     = JsArray [Sample.MOCK_ORGANIZATION_ID; Sample.MOCK_ID].
Proof.
  destruct (proj1 (Role_aclKey_follows_id Sample.MOCK_BUILDER Sample.MOCK_BUILDER
                     Sample.ROLE_MOCK Sample_AT_CLASS_apart MOCK_BUILDER_reachable
                     MOCK_BUILDER_build))
    as (_ & HaclKey & _ & Hobject).
  - vm_compute. discriminate.
  - split; [exact HaclKey | exact Hobject].
Defined.

Lemma Role_round_trip_witness :
  exists builder role',
    RoleBuilder.constructor (Role.toObject Sample.ROLE_MOCK) = Normal builder
    /\ (RoleBuilder.build builder).1 = Normal role'
    /\ Role.toObject role' = Role.toObject Sample.ROLE_MOCK.
Proof.
  exact (Role_round_trip Sample.MOCK_BUILDER Sample.MOCK_BUILDER Sample.ROLE_MOCK
           Sample_Principal_round_trip Sample_AT_CLASS_apart MOCK_BUILDER_reachable
           MOCK_BUILDER_build).
Defined.

Lemma AccessCheckBuilder_permissions_distinct_witness :
  exists q,
    (bind (AccessCheckBuilder.setPermissions
             (JsArray [JsString "READ"; JsString "WRITE"; JsString "READ"]))
       (fun _ => AccessCheckBuilder.build) AccessCheckBuilder.empty).1
    = Normal {| AccessCheck.aclKey := JsArray []; AccessCheck.permissions := JsArray q |}
    /\ NoDup q.
Proof.
  destruct (AccessCheckBuilder_permissions_distinct
              [JsString "READ"; JsString "WRITE"; JsString "READ"]
              AccessCheckBuilder.empty)
    as (q & Hrun & Hnodup & _).
  - discriminate.
  - vm_compute. reflexivity.
  - exists q. split; [exact Hrun | exact Hnodup].
Defined.

(** A title or a description of blanks is turned down, as one that is no
    string is. *)
Example blank_title_and_description :
  RoleBuilder.setTitle (JsString " ") RoleBuilder.empty
  = (Throw (Error RoleBuilder.invalid_title), RoleBuilder.empty)
  /\ RoleBuilder.setDescription (JsString "  ") RoleBuilder.empty
     = (Throw (Error RoleBuilder.invalid_description), RoleBuilder.empty)
  /\ RoleBuilder.constructor
       (JsObject [("description", JsString " "); ("id", JsNumber 1)])
     = Throw (Error RoleBuilder.invalid_description)
  /\ RoleBuilder.constructor
       (JsObject [("organizationId", Sample.MOCK_ORGANIZATION_ID);
                  ("principal", Sample.MOCK_PRINCIPAL); ("title", JsString " ")])
     = Throw (Error RoleBuilder.invalid_title).
Proof. repeat split. Qed.

Lemma setters_throw_on_invalid_value_witness :
  RoleBuilder.setTitle (JsNumber 42) RoleBuilder.empty
  = (Throw (Error RoleBuilder.invalid_title), RoleBuilder.empty)
  /\ AccessCheckBuilder.setAclKey (JsNumber 42) AccessCheckBuilder.empty
     = (Throw (Error AccessCheckBuilder.invalid_aclKey), AccessCheckBuilder.empty).
Proof.
  destruct (setters_throw_on_invalid_value (JsNumber 42))
    as (Htitle & _ & _ & _ & HaclKey & _); try reflexivity.
  split; [apply Htitle | apply HaclKey]; reflexivity.
Defined.

Lemma guarded_wrappers_reject_invalid_parameters_witness :
  match head Exports.guarded with
  | Some w =>
      Exports.name w = "LinkingApi.linkEntities"
      /\ Exports.rejects_invalid_parameter
           (Exports.call w [JsString "not-a-uuid"; JsUndefined; JsUndefined])
  | None => False
  end.
Proof.
  unfold Exports.guarded. cbn [head].
  split; [reflexivity|].
  lazymatch goal with
  | |- Exports.rejects_invalid_parameter (Exports.call ?w ?a) =>
      refine (proj1 (proj1 (guarded_wrappers_reject_invalid_parameters w a) _ _))
  end.
  - apply elem_of_app. left. apply list_elem_of_here.
  - vm_compute. reflexivity.
Defined.

Lemma Role_methods_change_no_object_witness :
  match Sample.ROLE_MOCK_in_store with
  | (Normal this, h) =>
      (Store.load this "aclKey" (RoleInstance.valueOf this h).2).1
      = (Store.load this "aclKey" h).1
  | _ => False
  end.
Proof.
  destruct Sample.ROLE_MOCK_in_store as [[this|e] h] eqn:E.
  2:{ vm_compute in E. discriminate E. }
  assert (Hthis : exists l, this = Store.VRef l /\ is_Some (h !! l)).
  { vm_compute in E. injection E as <- <-. eexists. split; [reflexivity|].
    vm_compute. eauto. }
  destruct Hthis as (l & Hl & Hsome).
  apply (proj2 (Role_methods_change_no_object this h Sample_imports_preserve
                  (RoleInstance.valueOf this h).2
                  ltac:(rewrite !elem_of_cons; auto)) l "aclKey" Hl Hsome).
Defined.

End Sample_facts.

(** * Further properties *)

(** ** RoleBuilder and Role *)

Section RoleBuilder_more.
Context `{UUIDValidator} `{PrincipalModule} `{GlobalConstants}.
Import RoleBuilder.

Lemma build_state (this : RoleBuilder) : (build this).2 = this.
Proof.
  unfold build, bind, get_this.
  destruct (truthy (organizationId this)); simpl; [|done].
  destruct (principal this); simpl; [|done].
  destruct (truthy (title this)); simpl; done.
Qed.

(** Going through the tests a setter makes of its argument. *)
Ltac case_setters :=
  unfold setDescription, setId, setOrganizationId, setPrincipal, setTitle,
    throw, assign, ret;
  repeat match goal with
    | Hknown : LangUtils.isNonEmptyString ?v = _
      |- context [LangUtils.isNonEmptyString ?v] => rewrite Hknown
    end;
  repeat match goal with
    | |- context [if negb ?b || ?c then _ else _] =>
        destruct b eqn:?; cbn [negb orb]
    | |- context [if negb ?b then _ else _] => destruct b eqn:?; cbn [negb orb]
    | |- context [if ?b then _ else _] => destruct b eqn:?; cbn [negb orb]
    | |- context [match PrincipalBuilder_build ?v with _ => _ end] =>
        destruct (PrincipalBuilder_build v) eqn:?
    end;
  cbn [snd fst].

(** X3. The state two calls leave a builder in does not depend on their
    order when they assign different fields, whether they return or throw. *)
Theorem RoleBuilder_calls_on_different_fields_commute (c1 c2 : call) (this : RoleBuilder) :
  field c1 <> field c2 ->
  after c1 (after c2 this) = after c2 (after c1 this).
Proof.
  intros Hfield.
  destruct c1, c2; cbn [field] in Hfield; try congruence;
    cbn [after]; rewrite ?build_state; try reflexivity;
    case_setters; reflexivity.
Qed.

(** X4. Making a call a second time leaves the builder as the first left
    it. *)
Theorem RoleBuilder_call_repeated (c : call) (this : RoleBuilder) :
  after c (after c this) = after c this.
Proof.
  destruct c; cbn [after]; rewrite ?build_state; try reflexivity;
    case_setters; reflexivity.
Qed.


(** The outcome of [new RoleBuilder(value)] for a defined [value], test by
    test. *)
Lemma constructor_defined (value : JsValue) :
  LangUtils.isDefined value = true ->
  constructor value =
    match bind (setDescription (get_prop value "description")) (fun _ =>
          bind (setId (get_prop value "id")) (fun _ =>
          bind (setOrganizationId (get_prop value "organizationId")) (fun _ =>
          bind (setPrincipal (get_prop value "principal")) (fun _ =>
          setTitle (get_prop value "title"))))) empty with
    | (Normal _, this) => Normal this
    | (Throw e, _) => Throw e
    end.
Proof. intros Hdef. unfold constructor. by rewrite Hdef. Qed.

(** X1. When [new RoleBuilder(value)] returns for a defined [value], the
    builder holds the organizationId, title and built principal of [value],
    its description and id when they are not skipped, and [build()] on it
    returns a Role. *)
Theorem RoleBuilder_constructor_then_build (value : JsValue) (builder : RoleBuilder) :
  UUIDs_truthy -> LangUtils.isDefined value = true ->
  constructor value = Normal builder ->
  exists p role,
  principal builder = Some p
  /\ PrincipalBuilder_build (get_prop value "principal") = Normal p
  /\ organizationId builder = get_prop value "organizationId"
  /\ title builder = get_prop value "title"
  /\ description builder
     = (if LangUtils.isNonEmptyString (get_prop value "description")
        then get_prop value "description" else JsUndefined)
  /\ id builder
     = (if LangUtils.isDefined (get_prop value "id")
           && negb (LangUtils.isEmptyString (get_prop value "id"))
        then get_prop value "id" else JsUndefined)
  /\ build builder = (Normal role, builder).
Proof.
  intros Huuid Hdef. rewrite (constructor_defined _ Hdef).
  generalize (get_prop value "description") (get_prop value "id")
    (get_prop value "organizationId") (get_prop value "principal")
    (get_prop value "title").
  intros d i o pv t.
  destruct (LangUtils.isNonEmptyString d) eqn:Ed;
    destruct d as [| | | |[|cd sd]| |], i as [| | | |[|ci si]| |];
    try discriminate Ed;
    cbn [LangUtils.isDefined LangUtils.isEmptyString
           lodash.isNull lodash.isUndefined lodash.isString lodash.isEmpty negb andb orb];
    unfold bind at 1; case_setters; try discriminate;
    unfold bind at 1; case_setters; try discriminate;
    unfold bind at 1; case_setters; try discriminate;
    unfold bind at 1; case_setters; try discriminate;
    intros [= <-];
    cbn [organizationId title principal description id set_title set_principal
           set_organizationId set_id set_description empty from_option andb negb];
    do 2 eexists; (do 6 (split; [reflexivity|]));
    apply build_success;
    cbn [organizationId title principal description id set_title set_principal
           set_organizationId set_id set_description empty];
    first [ reflexivity | by apply Huuid | by apply isNonEmptyString_truthy ].
Qed.

(** X2. [new RoleBuilder(value)] throws the error of the first property, in
    the order description, id, organizationId, principal, title, that its
    setter rejects. *)
Theorem RoleBuilder_constructor_first_error (value : JsValue) :
  LangUtils.isDefined value = true ->
  let d := get_prop value "description" in
  let i := get_prop value "id" in
  let o := get_prop value "organizationId" in
  let p := get_prop value "principal" in
  let t := get_prop value "title" in
  (description_rejected d = true ->
     constructor value = Throw (Error invalid_description))
  /\ (description_rejected d = false -> id_rejected i = true ->
     constructor value = Throw (Error invalid_id))
  /\ (description_rejected d = false -> id_rejected i = false ->
      isValidUUID o = false ->
     constructor value = Throw (Error invalid_organizationId))
  /\ (forall e, description_rejected d = false -> id_rejected i = false ->
      isValidUUID o = true -> PrincipalBuilder_build p = Throw e ->
     constructor value = Throw e)
  /\ (forall built, description_rejected d = false -> id_rejected i = false ->
      isValidUUID o = true -> PrincipalBuilder_build p = Normal built ->
      LangUtils.isNonEmptyString t = false ->
     constructor value = Throw (Error invalid_title)).
Proof.
  intros Hdef. cbv zeta. rewrite (constructor_defined _ Hdef).
  unfold description_rejected, id_rejected.
  repeat split.
  - intros Hd. unfold bind at 1. case_setters; try reflexivity; discriminate.
  - intros Hd Hi. unfold bind at 1.
    case_setters; try discriminate; unfold bind at 1; case_setters;
      try reflexivity; discriminate.
  - intros Hd Hi Ho. unfold bind at 1.
    case_setters; try discriminate; unfold bind at 1; case_setters;
      try discriminate; unfold bind at 1; case_setters; try reflexivity; congruence.
  - intros e Hd Hi Ho Hp. unfold bind at 1.
    case_setters; try discriminate; unfold bind at 1; case_setters;
      try discriminate; unfold bind at 1; case_setters; try congruence;
      unfold bind at 1; case_setters; congruence.
  - intros built Hd Hi Ho Hp Ht. unfold bind at 1.
    case_setters; try discriminate; unfold bind at 1; case_setters;
      try discriminate; unfold bind at 1; case_setters; try congruence;
      unfold bind at 1; case_setters; try congruence.
Qed.

End RoleBuilder_more.

Section Role_more.
Context `{PrincipalModule} `{GlobalConstants}.

(** X5. The serialized form of any Role carries the class marker under
    [AT_CLASS] and the three required properties; it has an aclKey exactly
    when it has an id, which is when the id of the Role is defined. *)
Theorem Role_toObject_class_marker (role : Role.Role) :
  AT_CLASS_apart ->
  get_prop (Role.toObject role) AT_CLASS = JsString Role.ROLE_CLASS_PACKAGE
  /\ get_prop (Role.toObject role) "organizationId" = Role.organizationId role
  /\ get_prop (Role.toObject role) "principal" = Principal_toObject (Role.principal role)
  /\ get_prop (Role.toObject role) "title" = Role.title role
  /\ has_prop (Role.toObject role) "aclKey" = has_prop (Role.toObject role) "id"
  /\ has_prop (Role.toObject role) "id" = LangUtils.isDefined (Role.id role)
  /\ has_prop (Role.toObject role) "description"
     = LangUtils.isDefined (Role.description role).
Proof.
  intros Hapart. rewrite (toObject_props _ Hapart). apart_facts Hapart.
  assert (Hrefl : String.eqb AT_CLASS AT_CLASS = true) by apply String.eqb_refl.
  destruct (LangUtils.isDefined (Role.description role));
    destruct (LangUtils.isDefined (Role.id role));
    repeat (progress props_step); rewrite ?Hrefl; repeat split.
Qed.

End Role_more.

(** X15. Each download wrapper of DataApi rejects with the reason of its
    plain counterpart and otherwise requests the same URL with GET, adding
    only the [fileType] parameter. *)
Theorem download_wrappers_agree (entityTypeFqn entitySetName fileType : JsValue) :
  match DataApi.getAllEntitiesOfType entityTypeFqn,
        DataApi.downloadAllEntitiesOfType entityTypeFqn fileType with
  | Requested get, Requested download =>
      url get = url download /\ (verb get, verb download) = (GET, GET)
      /\ argument get = None
      /\ argument download = Some (JsObject [("params", JsObject [("fileType", fileType)])])
  | Rejected reason1, Rejected reason2 => reason1 = reason2
  | _, _ => False
  end
  /\ match DataApi.getAllEntitiesOfTypeInSet entityTypeFqn entitySetName,
           DataApi.downloadAllEntitiesOfTypeInSet entityTypeFqn entitySetName fileType with
     | Requested get, Requested download =>
         url get = url download /\ (verb get, verb download) = (GET, GET)
         /\ argument get = None
         /\ argument download
            = Some (JsObject [("params", JsObject [("fileType", fileType)])])
     | Rejected reason1, Rejected reason2 => reason1 = reason2
     | _, _ => False
     end.
Proof.
  unfold DataApi.getAllEntitiesOfType, DataApi.downloadAllEntitiesOfType,
    DataApi.getAllEntitiesOfTypeInSet, DataApi.downloadAllEntitiesOfTypeInSet.
  destruct (FullyQualifiedName.isValidFqnObjectLiteral entityTypeFqn),
    (LangUtils.isNonEmptyString entitySetName); cbn [negb]; repeat split.
Qed.

(** ** AccessCheckBuilder *)

Section ImmutableSet_more.
Import ImmutableSet.

Lemma fold_add_NoDup (values : list JsValue) (set : t) :
  NoDup (set ++ values) ->
  foldl (fun set value => add value set) set values = set ++ values.
Proof.
  revert set. induction values as [|v values IH]; intros set Hnd; simpl.
  - by rewrite app_nil_r.
  - assert (Hv : v ∉ set).
    { apply NoDup_app in Hnd as (_ & Hdisj & _). intros Hin.
      apply (Hdisj v Hin). apply list_elem_of_here. }
    unfold add at 2. destruct (decide (v ∈ set)) as [?|_]; [done|].
    rewrite IH; [by rewrite <- app_assoc|]. by rewrite <- app_assoc.
Qed.

Lemma ImmutableSet_withMutations_NoDup (values : list JsValue) :
  NoDup values -> withMutations_forEach_add values = values.
Proof. intros Hnd. unfold withMutations_forEach_add, empty. by rewrite fold_add_NoDup. Qed.

End ImmutableSet_more.

Section AccessCheckBuilder_more.
Context `{UUIDValidator} `{PermissionTypesModule}.
Import AccessCheckBuilder.

Lemma isValidPermissionArray_withMutations (p : list JsValue) :
  ValidationUtils.isValidPermissionArray (JsArray p) = true ->
  ValidationUtils.isValidPermissionArray
    (JsArray (ImmutableSet.withMutations_forEach_add p)) = true.
Proof.
  intros Hvalid.
  assert (Hall : forallb ValidationUtils.isValidPermission p = true).
  { destruct p; [discriminate | exact Hvalid]. }
  assert (Hall' : forallb ValidationUtils.isValidPermission
                    (ImmutableSet.withMutations_forEach_add p) = true).
  { apply forallb_forall. intros x Hx. rewrite forallb_forall in Hall. apply Hall.
    apply list_elem_of_In. apply elem_of_withMutations. by apply list_elem_of_In. }
  destruct (ImmutableSet.withMutations_forEach_add p) as [|x q] eqn:E; [|exact Hall'].
  destruct p as [|y p]; [discriminate|].
  assert (Hy : y ∈ ImmutableSet.withMutations_forEach_add (y :: p)).
  { apply elem_of_withMutations. apply list_elem_of_here. }
  rewrite E in Hy. by apply elem_of_nil in Hy.
Qed.

Lemma build_run (this : AccessCheckBuilder) :
  build this =
    (Normal {| AccessCheck.aclKey :=
                 if truthy (aclKey this) then aclKey this else JsArray [];
               AccessCheck.permissions :=
                 if truthy (permissions this) then permissions this else JsArray [] |},
     {| aclKey := if truthy (aclKey this) then aclKey this else JsArray [];
        permissions := if truthy (permissions this) then permissions this else JsArray [] |}).
Proof.
  destruct this as [a p]. unfold build, bind, get_this, assign, ret. simpl.
  destruct (truthy a) eqn:Ea; simpl; destruct (truthy p) eqn:Ep; simpl; reflexivity.
Qed.

Lemma AccessCheckBuilder_empty_validated : validated empty.
Proof. split; by left. Qed.

Lemma AccessCheckBuilder_after_validated (c : call) (this : AccessCheckBuilder) :
  validated this -> validated (after c this).
Proof.
  intros Hv. pose proof Hv as (Ha & Hp). destruct c as [v|v|]; cbn [after].
  - unfold setAclKey.
    destruct (lodash.isUndefined v || LangUtils.isEmptyArray v); [exact Hv|].
    destruct (ValidationUtils.isValidUuidArray v) eqn:E; simpl; [|exact Hv].
    split; [by right; right | exact Hp].
  - unfold setPermissions.
    destruct (lodash.isUndefined v || LangUtils.isEmptyArray v); [exact Hv|].
    destruct (ValidationUtils.isValidPermissionArray v) eqn:E; simpl; [|exact Hv].
    destruct v as [| | | | |p|]; try discriminate. simpl.
    split; [exact Ha|]. right; right. eexists. split; [reflexivity|].
    split; [apply NoDup_withMutations | by apply isValidPermissionArray_withMutations].
  - rewrite build_run. cbn [snd]. split; simpl.
    + destruct (truthy (aclKey this)); [exact Ha | by right; left].
    + destruct (truthy (permissions this)); [exact Hp | by right; left].
Qed.

Lemma AccessCheckBuilder_reachable_validated (this : AccessCheckBuilder) :
  reachable this -> validated this.
Proof.
  induction 1 as [|c this _ IH];
    [apply AccessCheckBuilder_empty_validated | by apply AccessCheckBuilder_after_validated].
Qed.


(** X6. [build()] never throws: it returns an AccessCheck and leaves the
    builder in a state on which a second [build()] returns the same
    AccessCheck and changes nothing. *)
Theorem AccessCheckBuilder_build_twice (this : AccessCheckBuilder) :
  exists (accessCheck : AccessCheck.AccessCheck) (this' : AccessCheckBuilder),
    build this = (Normal accessCheck, this')
    /\ build this' = (Normal accessCheck, this').
Proof.
  do 2 eexists. split; [apply build_run|].
  rewrite build_run. cbn [aclKey permissions].
  destruct (truthy (aclKey this)) eqn:Ea, (truthy (permissions this)) eqn:Ep;
    rewrite ?Ea, ?Ep; reflexivity.
Qed.

(** X7. An AccessCheck built by a builder reached through the calls of the
    class is rebuilt, field for field, by a new builder given its aclKey and
    permissions, and [isValid] accepts it. *)
Theorem AccessCheck_round_trip (this this' : AccessCheckBuilder)
  (accessCheck : AccessCheck.AccessCheck) :
  reachable this -> build this = (Normal accessCheck, this') ->
  bind (setAclKey (AccessCheck.aclKey accessCheck)) (fun _ =>
    bind (setPermissions (AccessCheck.permissions accessCheck)) (fun _ => build)) empty
  = (Normal accessCheck, this')
  /\ isValid (as_object accessCheck) = true.
Proof.
  intros Hreach Hbuild.
  destruct (AccessCheckBuilder_reachable_validated this Hreach) as (Ha & Hp).
  rewrite build_run in Hbuild. injection Hbuild as <- <-.
  set (a := if truthy (aclKey this) then aclKey this else JsArray []).
  set (p := if truthy (permissions this) then permissions this else JsArray []).
  assert (Ha' : a = JsArray [] \/ ValidationUtils.isValidUuidArray a = true).
  { subst a. destruct Ha as [->|[->|Ha]]; simpl; auto.
    destruct (truthy (aclKey this)); auto. }
  assert (Hp' : p = JsArray [] \/
                exists q, p = JsArray q /\ NoDup q
                          /\ ValidationUtils.isValidPermissionArray (JsArray q) = true).
  { subst p. destruct Hp as [->|[->|Hp]]; simpl; auto.
    destruct (truthy (permissions this)); auto. }
  clearbody a p. clear Ha Hp Hreach this.
  assert (Hchain :
    bind (setAclKey a) (fun _ => bind (setPermissions p) (fun _ => build)) empty
    = (Normal {| AccessCheck.aclKey := a; AccessCheck.permissions := p |},
       {| aclKey := a; permissions := p |})).
  { destruct Ha' as [->|Ha'], Hp' as [->|(q & -> & Hnd & Hq)].
    - reflexivity.
    - unfold bind at 1. cbn [setAclKey lodash.isUndefined LangUtils.isEmptyArray
        lodash.isArray lodash.isEmpty andb orb ret]. unfold bind at 1.
      rewrite (setPermissions_valid _ _ Hq), (ImmutableSet_withMutations_NoDup _ Hnd).
      rewrite build_run. reflexivity.
    - unfold bind at 1. unfold setAclKey. rewrite Ha'.
      destruct a as [| | | | |[|x xs]|]; try discriminate.
      reflexivity.
    - unfold bind at 1. unfold setAclKey. rewrite Ha'.
      destruct a as [| | | | |[|x xs]|]; try discriminate.
      cbn [lodash.isUndefined LangUtils.isEmptyArray lodash.isArray lodash.isEmpty
             andb orb negb assign]. unfold bind at 1.
      rewrite (setPermissions_valid _ _ Hq), (ImmutableSet_withMutations_NoDup _ Hnd).
      rewrite build_run. reflexivity. }
  split; [exact Hchain|].
  unfold isValid, as_object.
  cbn [AccessCheck.aclKey AccessCheck.permissions LangUtils.isDefined lodash.isNull
         lodash.isUndefined negb andb orb has_prop get_prop assoc_get].
  change (String.eqb "aclKey" "aclKey") with true.
  change (String.eqb "permissions" "aclKey") with false.
  change (String.eqb "permissions" "permissions") with true.
  cbv iota. cbn [bool_decide negb orb].
  replace (bool_decide (is_Some (Some a))) with true
    by (symmetry; apply bool_decide_eq_true; eauto).
  replace (bool_decide (is_Some (Some p))) with true
    by (symmetry; apply bool_decide_eq_true; eauto).
  cbn [negb orb]. by rewrite Hchain.
Qed.


Lemma setAclKey_returns (a : JsValue) (this : AccessCheckBuilder) :
  (exists this', setAclKey a this = (Normal tt, this'))
  <-> lodash.isUndefined a || LangUtils.isEmptyArray a
      || ValidationUtils.isValidUuidArray a = true.
Proof.
  unfold setAclKey.
  destruct (lodash.isUndefined a || LangUtils.isEmptyArray a); cbn [orb].
  - split; [done | eauto].
  - destruct (ValidationUtils.isValidUuidArray a); cbn [negb].
    + split; [done | eauto].
    + split; [intros (? & [=]) | done].
Qed.

Lemma setPermissions_returns (p : JsValue) (this : AccessCheckBuilder) :
  (exists this', setPermissions p this = (Normal tt, this'))
  <-> lodash.isUndefined p || LangUtils.isEmptyArray p
      || ValidationUtils.isValidPermissionArray p = true.
Proof.
  unfold setPermissions.
  destruct (lodash.isUndefined p || LangUtils.isEmptyArray p); cbn [orb].
  - split; [done | eauto].
  - destruct (ValidationUtils.isValidPermissionArray p) eqn:E; cbn [negb].
    + destruct p as [| | | | |elems|]; try discriminate. split; [done | eauto].
    + split; [intros (? & [=]) | done].
Qed.

(** X8. [isValid] accepts exactly the defined values that have both
    properties, each of them undefined, an empty array, or an array that
    passes its setter's test. *)
Theorem AccessCheck_isValid_iff (accessCheck : JsValue) :
  isValid accessCheck = true
  <-> LangUtils.isDefined accessCheck = true
      /\ has_prop accessCheck "aclKey" = true
      /\ has_prop accessCheck "permissions" = true
      /\ lodash.isUndefined (get_prop accessCheck "aclKey")
         || LangUtils.isEmptyArray (get_prop accessCheck "aclKey")
         || ValidationUtils.isValidUuidArray (get_prop accessCheck "aclKey") = true
      /\ lodash.isUndefined (get_prop accessCheck "permissions")
         || LangUtils.isEmptyArray (get_prop accessCheck "permissions")
         || ValidationUtils.isValidPermissionArray (get_prop accessCheck "permissions")
         = true.
Proof.
  unfold isValid.
  destruct (LangUtils.isDefined accessCheck); cbn [negb]; [|split; [done | by intros []]].
  destruct (has_prop accessCheck "aclKey"); cbn [negb orb];
    [|split; [done | by intros (_ & ? & _)]].
  destruct (has_prop accessCheck "permissions"); cbn [negb orb];
    [|split; [done | by intros (_ & _ & ? & _)]].
  rewrite <- (setAclKey_returns (get_prop accessCheck "aclKey") empty).
  unfold bind at 1.
  destruct (setAclKey (get_prop accessCheck "aclKey") empty) as [[[]|e] this1] eqn:Ea.
  2:{ split; [done|]. by intros (_ & _ & _ & (? & [=]) & _). }
  rewrite <- (setPermissions_returns (get_prop accessCheck "permissions") this1).
  unfold bind at 1.
  destruct (setPermissions (get_prop accessCheck "permissions") this1)
    as [[[]|e] this2] eqn:Ep.
  2:{ split; [done|]. by intros (_ & _ & _ & _ & (? & [=])). }
  rewrite build_run. split; [|done]. intros _. repeat split; eauto.
Qed.

End AccessCheckBuilder_more.

(** ** Objects in the store: new objects *)

Section Store_triples.
Import Store.

Lemma triple_ret {A : Type} (P : store -> Prop) (a : A) (Q : A -> store -> Prop)
  (E : store -> Prop) :
  (forall h, P h -> Q a h) -> triple P (ret a) Q E.
Proof. intros HQ h Hh. by apply HQ. Qed.

Lemma triple_bind {A B : Type} (P : store -> Prop) (m : method store A)
  (k : A -> method store B) (R : A -> store -> Prop) (Q : B -> store -> Prop)
  (E : store -> Prop) :
  triple P m R E -> (forall a, triple (R a) (k a) Q E) -> triple P (bind m k) Q E.
Proof.
  intros Hm Hk h Hh. unfold bind. specialize (Hm h Hh).
  destruct (m h) as [[a|e] h']; [by apply Hk | done].
Qed.

Lemma triple_load (P : store -> Prop) (o : value) (k : string) (E : store -> Prop) :
  (forall h, P h -> E h) -> triple P (load o k) (fun _ h => P h) E.
Proof.
  intros HE h Hh. unfold load. destruct o as [| | | | |l]; auto.
  destruct (h !! l) as [[ps|elems]|]; auto.
Qed.

Lemma triple_alloc (P : store -> Prop) (o : object) (E : store -> Prop) :
  triple P (alloc o) (fun l h' => exists h, P h /\ h !! l = None /\ h' = <[l := o]> h) E.
Proof.
  intros h Hh. unfold alloc. exists h. split; [done|]. split; [|done].
  apply not_elem_of_dom. apply is_fresh.
Qed.

Lemma triple_store_prop (P Q : store -> Prop) (o : value) (k : string) (v : value)
  (E : store -> Prop) :
  (forall h, P h -> E h) ->
  (forall h l ps, P h -> o = VRef l -> h !! l = Some (OObject ps) ->
     Q (<[l := OObject (props_set k v ps)]> h)) ->
  (forall h l, P h -> o = VRef l ->
     (forall ps, h !! l <> Some (OObject ps)) -> Q h) ->
  triple P (store_prop o k v) (fun _ h => Q h) E.
Proof.
  intros HE Hset Hnot h Hh. unfold store_prop. destruct o as [| | | | |l]; auto.
  destruct (h !! l) as [[ps|elems]|] eqn:El.
  - by eapply Hset.
  - eapply Hnot; [done | done |]. intros ps. rewrite El. discriminate.
  - eapply Hnot; [done | done |]. intros ps. rewrite El. discriminate.
Qed.

Lemma triple_preserves {A : Type} (h0 : store) (m : method store A) (E : store -> Prop) :
  preserves m -> (forall h, E h) ->
  triple (fun h => h0 ⊆ h) m (fun _ h => h0 ⊆ h) E.
Proof.
  intros Hm HE h Hh. specialize (Hm h).
  destruct (m h) as [[a|e] h']; simpl in *; [by etrans | apply HE].
Qed.

Lemma props_get_set (k k' : string) (v : value) (ps : list (string * value)) :
  props_get k' (props_set k v ps) = if String.eqb k' k then Some v else props_get k' ps.
Proof.
  induction ps as [|[k0 v0] ps IH]; simpl.
  - by destruct (String.eqb k' k).
  - destruct (String.eqb k k0) eqn:Ek; simpl.
    + apply String.eqb_eq in Ek as ->. by destruct (String.eqb k' k0).
    + rewrite IH. destruct (String.eqb k' k0) eqn:Ek0; [|done].
      apply String.eqb_eq in Ek0 as ->.
      rewrite String.eqb_sym in Ek. by rewrite Ek.
Qed.

End Store_triples.

Section RoleInstance_more.
Context `{GlobalConstants} `{StoreImports}.
Import Store RoleInstance.

Lemma filling_load (h0 : store) (l : loc) (o : value) (k : string) :
  triple (filling h0 l) (load o k) (fun _ h => filling h0 l h) (fun _ => True).
Proof. by apply triple_load. Qed.

Lemma filling_store_prop (h0 : store) (l : loc) (k : string) (v : value) :
  (k = "aclKey" -> forall a, v = VRef a -> h0 !! a = None) ->
  triple (filling h0 l) (store_prop (VRef l) k v) (fun _ h => filling h0 l h) (fun _ => True).
Proof.
  intros Hv. apply triple_store_prop; [done | |].
  - intros h l' ps (Hsub & Hl & ps' & Hps' & Hacl) [= <-] Hps.
    rewrite Hps' in Hps. injection Hps as <-.
    split; [by apply insert_subseteq_r|]. split; [done|].
    exists (props_set k v ps'). split; [by rewrite lookup_insert_eq|].
    intros a. rewrite props_get_set.
    destruct (String.eqb "aclKey" k) eqn:Ek; [|by apply Hacl].
    apply String.eqb_eq in Ek. intros [= ->]. by eapply Hv.
  - by intros h l' Hfill _ _.
Qed.

Lemma filling_alloc_array (h0 : store) (l : loc) (elems : list value) :
  triple (filling h0 l) (alloc (OArray elems))
    (fun a h => filling h0 l h /\ h0 !! a = None) (fun _ => True).
Proof.
  intros h (Hsub & Hl & ps & Hps & Hacl). unfold alloc.
  set (a := fresh (dom h)).
  assert (Ha : h !! a = None) by (apply not_elem_of_dom, is_fresh).
  assert (Ha0 : h0 !! a = None).
  { destruct (h0 !! a) as [o|] eqn:E; [|done].
    by rewrite (lookup_weaken _ _ _ _ E Hsub) in Ha. }
  split; [|done]. split; [by apply insert_subseteq_r|]. split; [done|].
  exists ps. split; [|done]. rewrite lookup_insert_ne; [done|]. congruence.
Qed.

Lemma toObject_triple (h0 : store) (this : value) :
  imports_preserve ->
  triple (fun h => h0 ⊆ h) (toObject this)
    (fun v h => exists l, v = VRef l /\ filling h0 l h) (fun _ => True).
Proof.
  intros (Hprincipal & _ & _). unfold toObject.
  eapply triple_bind; [by apply triple_load|]. intros this_organizationId. cbv beta.
  eapply triple_bind; [by apply triple_load|]. intros this_principal. cbv beta.
  eapply triple_bind; [by apply triple_preserves|]. intros principalObj. cbv beta.
  eapply triple_bind; [by apply triple_load|]. intros this_title. cbv beta.
  eapply triple_bind; [apply triple_alloc|]. intros l.
  eapply (triple_bind _ _ _ (fun _ h => filling h0 l h)).
  { intros h (h1 & Hsub & Hl & ->). apply filling_store_prop.
    - discriminate 2.
    - assert (Hl0 : h0 !! l = None).
      { destruct (h0 !! l) as [o|] eqn:E; [|done].
        by rewrite (lookup_weaken _ _ _ _ E Hsub) in Hl. }
      split; [by apply insert_subseteq_r|].
      split; [done|]. eexists. split; [by rewrite lookup_insert_eq|].
      intros a. simpl. discriminate. }
  intros _. cbv beta.
  eapply triple_bind; [apply filling_load|]. intros this_description. cbv beta.
  eapply (triple_bind _ _ _ (fun _ h => filling h0 l h)).
  { destruct (isDefined this_description); [|by apply triple_ret].
    eapply triple_bind; [apply filling_load|]. intros ?. cbv beta.
    apply filling_store_prop. discriminate 1. }
  intros _. cbv beta.
  eapply triple_bind; [apply filling_load|]. intros this_id. cbv beta.
  eapply (triple_bind _ _ _ (fun _ h => filling h0 l h)).
  { destruct (isDefined this_id); [|by apply triple_ret].
    eapply triple_bind; [apply filling_load|]. intros ?. cbv beta.
    eapply triple_bind; [apply filling_load|]. intros ?. cbv beta.
    eapply triple_bind; [apply filling_alloc_array|]. intros aclKey. cbv beta.
    eapply (triple_bind _ _ _ (fun _ h => filling h0 l h)).
    { intros h (Hfill & Ha). apply filling_store_prop; [|done].
      intros _ a' [= <-]. done. }
    intros _. cbv beta.
    eapply triple_bind; [apply filling_load|]. intros ?. cbv beta.
    apply filling_store_prop. discriminate 1. }
  intros _. apply triple_ret. intros h Hfill. by exists l.
Qed.

(** X10. The object [toObject()] returns is a new one, and so is the array
    it holds under aclKey: neither is an object of the store the method was
    called in. *)
Theorem Role_toObject_returns_new_object (this v : value) (h h' : store) :
  imports_preserve ->
  toObject this h = (Normal v, h') ->
  exists l ps,
    v = VRef l /\ h !! l = None /\ h' !! l = Some (OObject ps)
    /\ forall a, props_get "aclKey" ps = Some (VRef a) -> h !! a = None.
Proof.
  intros Himports Hrun.
  pose proof (toObject_triple h this Himports h (reflexivity h)) as Htriple.
  rewrite Hrun in Htriple.
  destruct Htriple as (l & -> & _ & Hl & ps & Hps & Hacl). by exists l, ps.
Qed.


Lemma constructor_triple (h0 : store) (role : value) :
  triple (fun h => h0 ⊆ h) (constructor role)
    (fun v h => exists l, v = VRef l /\ filling h0 l h) (fun _ => True).
Proof.
  unfold constructor.
  eapply triple_bind; [apply triple_alloc|]. intros l.
  eapply (triple_bind _ _ _ (fun _ h => filling h0 l h)).
  { intros h (h1 & Hsub & Hl & ->). apply triple_load; [done|].
    assert (Hl0 : h0 !! l = None).
    { destruct (h0 !! l) as [o|] eqn:E; [|done].
      by rewrite (lookup_weaken _ _ _ _ E Hsub) in Hl. }
    split; [by apply insert_subseteq_r|].
    split; [done|]. eexists. split; [by rewrite lookup_insert_eq|].
    intros a. simpl. discriminate. }
  intros role_organizationId. cbv beta.
  eapply triple_bind; [apply filling_store_prop; discriminate 1|]. intros ?. cbv beta.
  eapply triple_bind; [apply filling_load|]. intros role_principal. cbv beta.
  eapply triple_bind; [apply filling_store_prop; discriminate 1|]. intros ?. cbv beta.
  eapply triple_bind; [apply filling_load|]. intros role_title. cbv beta.
  eapply triple_bind; [apply filling_store_prop; discriminate 1|]. intros ?. cbv beta.
  eapply triple_bind; [apply filling_store_prop; discriminate 2|]. intros ?. cbv beta.
  eapply triple_bind; [apply filling_load|]. intros role_description. cbv beta.
  eapply (triple_bind _ _ _ (fun _ h => filling h0 l h)).
  { destruct (isDefined role_description); [|by apply triple_ret].
    eapply triple_bind; [apply filling_load|]. intros ?. cbv beta.
    apply filling_store_prop. discriminate 1. }
  intros _. cbv beta.
  eapply triple_bind; [apply filling_load|]. intros role_id. cbv beta.
  eapply (triple_bind _ _ _ (fun _ h => filling h0 l h)).
  { destruct (isDefined role_id); [|by apply triple_ret].
    eapply triple_bind; [apply filling_load|]. intros ?. cbv beta.
    eapply triple_bind; [apply filling_load|]. intros ?. cbv beta.
    eapply triple_bind; [apply filling_alloc_array|]. intros aclKey. cbv beta.
    eapply (triple_bind _ _ _ (fun _ h => filling h0 l h)).
    { intros h (Hfill & Ha). apply filling_store_prop; [|done].
      intros _ a' [= <-]. done. }
    intros _. cbv beta.
    eapply triple_bind; [apply filling_load|]. intros ?. cbv beta.
    apply filling_store_prop. discriminate 1. }
  intros _. apply triple_ret. intros h Hfill. by exists l.
Qed.

(** X9. [new Role(role)] changes no existing object and returns a new one,
    whose aclKey array is new as well. *)
Theorem Role_constructor_returns_new_object (role v : value) (h h' : store) :
  constructor role h = (Normal v, h') ->
  h ⊆ h'
  /\ exists l ps,
       v = VRef l /\ h !! l = None /\ h' !! l = Some (OObject ps)
       /\ forall a, props_get "aclKey" ps = Some (VRef a) -> h !! a = None.
Proof.
  intros Hrun.
  pose proof (constructor_triple h role h (reflexivity h)) as Htriple.
  rewrite Hrun in Htriple.
  destruct Htriple as (l & -> & Hsub & Hl & ps & Hps & Hacl).
  split; [done|]. by exists l, ps.
Qed.

End RoleInstance_more.

(** ** API wrappers *)

Section Wrappers_more.
Context `{UUIDValidator}.

(** X11. [getEntitySetDataFileUrl] returns a URL exactly for a valid UUID
    and the file type [csv] or [json], which the URL then carries; the keys
    [CSV] and [JSON] of [FILE_TYPES] are not values of it, and get [null]. *)
Theorem getEntitySetDataFileUrl_file_types (entitySetId fileType : JsValue) :
  (api_DataApi.getEntitySetDataFileUrl entitySetId fileType <> None
   <-> isValidUUID entitySetId = true
       /\ (fileType = JsString "csv" \/ fileType = JsString "json"))
  /\ (forall address,
        api_DataApi.getEntitySetDataFileUrl entitySetId fileType = Some address ->
        address = [BaseUrl DATA_API; Lit "/"; Lit "entitydata"; Lit "/"; Interp entitySetId;
                   Lit "?fileType="; Interp fileType]).
Proof.
  unfold api_DataApi.getEntitySetDataFileUrl.
  destruct (isValidUUID entitySetId); cbn [negb].
  2:{ split; [split; [done | by intros []] | done]. }
  unfold api_DataApi.FILE_TYPES_contains, api_DataApi.FILE_TYPES. cbn [existsb snd].
  destruct (decide (fileType = JsString "csv")) as [->|Hcsv].
  { split; [split; [auto | done]|]. by intros address [= <-]. }
  destruct (decide (fileType = JsString "json")) as [->|Hjson].
  { split; [split; [auto | done]|]. by intros address [= <-]. }
  rewrite !bool_decide_eq_false_2 by done. cbn [orb negb].
  split; [split; [done | intros (_ & [?|?]); done] | done].
Qed.

Lemma reduce_and_forallb (test : JsValue -> bool) (elems : list JsValue) :
  reduce_and test (JsArray elems) = forallb test elems.
Proof.
  unfold reduce_and.
  assert (Hgen : forall acc, foldl (fun isValid x => isValid && test x) acc elems
                             = acc && forallb test elems).
  { induction elems as [|x elems IH]; intros acc; simpl.
    - by rewrite andb_true_r.
    - rewrite IH. by rewrite andb_assoc. }
  apply Hgen.
Qed.

(** The test the wrappers make of an array parameter passes exactly on a
    non-empty array whose every element passes. *)
Lemma all_of_Forall (test : JsValue -> bool) (array : JsValue) :
  Exports.all_of test array = true
  <-> exists x xs, array = JsArray (x :: xs) /\ Forall (fun v => test v = true) (x :: xs).
Proof.
  unfold Exports.all_of. split.
  - intros [Harray Hall]%andb_true_iff.
    destruct array as [| | | | |[|x xs]|]; try discriminate.
    rewrite reduce_and_forallb in Hall. exists x, xs. split; [done|].
    apply Forall_forall. intros v Hv. rewrite forallb_forall in Hall.
    apply Hall. by apply list_elem_of_In.
  - intros (x & xs & -> & Hall). rewrite reduce_and_forallb.
    cbn [LangUtils.isNonEmptyArray lodash.isArray lodash.isEmpty negb andb].
    apply forallb_forall. intros v Hv. rewrite Forall_forall in Hall.
    apply Hall. by apply list_elem_of_In.
Qed.

Ltac settle_cases :=
  repeat split; intros;
  repeat match goal with
    | Hc : _ /\ _ |- _ => destruct Hc
    | Hc : exists _, _ |- _ => destruct Hc
    end;
  try discriminate; try done; eauto.

(** X12. The wrappers that take an array parameter issue their request
    exactly when the array is non-empty and every element passes the test of
    the reduction (and the other parameter is valid). *)
Theorem array_parameters_request_iff_every_element_valid
  (schemaFqn fqns entityTypeId propertyTypeIds entitySets : JsValue) :
  let every (test : JsValue -> bool) (array : JsValue) : Prop :=
    exists x xs, array = JsArray (x :: xs) /\ Forall (fun v => test v = true) (x :: xs) in
  let schema_accepted :=
    FullyQualifiedName.isValidFqnObjectLiteral schemaFqn = true
    /\ every FullyQualifiedName.isValidFqnObjectLiteral fqns in
  (Exports.requests (EntityDataModelApi.addEntityTypesToSchema schemaFqn fqns)
   <-> schema_accepted)
  /\ (Exports.requests (EntityDataModelApi.removeEntityTypesFromSchema schemaFqn fqns)
      <-> schema_accepted)
  /\ (Exports.requests (EntityDataModelApi.addPropertyTypesToSchema schemaFqn fqns)
      <-> schema_accepted)
  /\ (Exports.requests (EntityDataModelApi.removePropertyTypesFromSchema schemaFqn fqns)
      <-> schema_accepted)
  /\ (Exports.requests
        (EntityDataModelApi.updatePropertyTypesForEntityType entityTypeId propertyTypeIds)
      <-> isValidUUID entityTypeId = true /\ every isValidUUID propertyTypeIds)
  /\ (Exports.requests (EntityDataModelApi.createEntitySets entitySets)
      <-> every LangUtils.isNonEmptyObject entitySets).
Proof.
  cbv zeta. rewrite <- !all_of_Forall. unfold Exports.all_of, Exports.requests.
  unfold EntityDataModelApi.addEntityTypesToSchema,
    EntityDataModelApi.removeEntityTypesFromSchema,
    EntityDataModelApi.addPropertyTypesToSchema,
    EntityDataModelApi.removePropertyTypesFromSchema,
    EntityDataModelApi.updatePropertyTypesForEntityType,
    EntityDataModelApi.createEntitySets. cbv zeta.
  destruct (FullyQualifiedName.isValidFqnObjectLiteral schemaFqn);
    destruct (LangUtils.isNonEmptyArray fqns);
    destruct (reduce_and FullyQualifiedName.isValidFqnObjectLiteral fqns);
    destruct (isValidUUID entityTypeId);
    destruct (LangUtils.isNonEmptyArray propertyTypeIds);
    destruct (reduce_and isValidUUID propertyTypeIds);
    destruct (LangUtils.isNonEmptyArray entitySets);
    destruct (reduce_and LangUtils.isNonEmptyObject entitySets);
    cbn [negb andb]; settle_cases.
Qed.

(** X13. [linkEntities], [setLinkedEntities] and [removeLinkedEntities]
    validate syncId, entitySetId and entityId, in this order, and nothing
    else: [entities] is not looked at.  They reject together, exactly when
    one of the three is invalid, with the reason of the first that is; when
    the three are valid they address the same URL with POST, PUT and DELETE,
    the first two with [entities], whatever it is, as the body. *)
Theorem linked_entities_wrappers_agree (syncId entitySetId entityId entities : JsValue) :
  match LinkingApi.linkEntities syncId entitySetId entityId entities,
        LinkingApi.setLinkedEntities syncId entitySetId entityId entities,
        LinkingApi.removeLinkedEntities syncId entitySetId entityId with
  | Requested post, Requested put, Requested delete =>
      isValidUUID syncId = true /\ isValidUUID entitySetId = true
      /\ LangUtils.isNonEmptyString entityId = true
      /\ url post = url put /\ url put = url delete
      /\ (verb post, verb put, verb delete) = (POST, PUT, DELETE)
      /\ argument post = Some entities /\ argument put = Some entities
      /\ argument delete = None
  | Rejected reason1, Rejected reason2, Rejected reason3 =>
      isValidUUID syncId && isValidUUID entitySetId
        && LangUtils.isNonEmptyString entityId = false
      /\ reason1 = reason2 /\ reason2 = reason3
      /\ reason1 =
           (if negb (isValidUUID syncId) then LinkingApi.invalid_syncId
            else if negb (isValidUUID entitySetId) then LinkingApi.invalid_entitySetId
            else LinkingApi.invalid_entityId)
  | _, _, _ => False
  end.
Proof.
  unfold LinkingApi.linkEntities, LinkingApi.setLinkedEntities,
    LinkingApi.removeLinkedEntities.
  destruct (isValidUUID syncId), (isValidUUID entitySetId),
    (LangUtils.isNonEmptyString entityId); cbn [negb andb]; repeat split.
Qed.

(** X14. [addLinkedEntities] and [removeLinkedEntity] reject the same
    parameters with the same reason and otherwise address the same URL with
    PUT and DELETE, without a body. *)
Theorem linked_entity_wrappers_agree (syncId entitySetId entityId linkedEntityId : JsValue) :
  match LinkingApi.addLinkedEntities syncId entitySetId entityId linkedEntityId,
        LinkingApi.removeLinkedEntity syncId entitySetId entityId linkedEntityId with
  | Requested put, Requested delete =>
      isValidUUID syncId = true /\ isValidUUID entitySetId = true
      /\ LangUtils.isNonEmptyString entityId = true
      /\ LangUtils.isNonEmptyString linkedEntityId = true
      /\ url put = url delete
      /\ (verb put, verb delete) = (PUT, DELETE)
      /\ argument put = None /\ argument delete = None
  | Rejected reason1, Rejected reason2 =>
      reason1 = reason2
      /\ reason1 =
           (if negb (isValidUUID syncId) then LinkingApi.invalid_syncId
            else if negb (isValidUUID entitySetId) then LinkingApi.invalid_entitySetId
            else if negb (LangUtils.isNonEmptyString entityId)
                 then LinkingApi.invalid_entityId
            else LinkingApi.invalid_linkedEntityId)
  | _, _ => False
  end.
Proof.
  unfold LinkingApi.addLinkedEntities, LinkingApi.removeLinkedEntity.
  destruct (isValidUUID syncId), (isValidUUID entitySetId),
    (LangUtils.isNonEmptyString entityId), (LangUtils.isNonEmptyString linkedEntityId);
    cbn [negb]; repeat split.
Qed.

(** X16. The request of [deletePropertyType] does not depend on the
    namespace of [propertyTypeFqn]. *)
Theorem deletePropertyType_ignores_namespace (propertyTypeId fqn1 fqn2 : JsValue) :
  FullyQualifiedName.isValidFqnObjectLiteral fqn1 = true ->
  FullyQualifiedName.isValidFqnObjectLiteral fqn2 = true ->
  get_prop fqn1 "name" = get_prop fqn2 "name" ->
  EntityDataModelApi.deletePropertyType propertyTypeId fqn1
  = EntityDataModelApi.deletePropertyType propertyTypeId fqn2.
Proof.
  intros Hfqn1 Hfqn2 Hname. unfold EntityDataModelApi.deletePropertyType.
  by rewrite Hfqn1, Hfqn2, Hname.
Qed.

(** X17. [getAllEntitySets] never rejects: it issues a GET request without a
    body, to the path of the entity sets alone when [isOwner] is null or
    undefined, and otherwise with the query string [?isOwner=] followed by
    the truth value of [isOwner]; so two arguments give the same request
    exactly when both are null or undefined, or neither is and they have the
    same truth value. *)
Theorem getAllEntitySets_isOwner (isOwner isOwner' : JsValue) :
  (exists request,
     EntityDataModelApi.getAllEntitySets isOwner = Requested request
     /\ api request = EDM_API /\ verb request = GET /\ argument request = None
     /\ (lodash.isNil isOwner = true ->
         url request = [Lit "/"; Lit ApiPaths.ENTITY_SET_PATH])
     /\ (lodash.isNil isOwner = false ->
         url request = [Lit "/"; Lit ApiPaths.ENTITY_SET_PATH; Lit "?isOwner=";
                        Interp (JsBool (truthy isOwner))]))
  /\ (EntityDataModelApi.getAllEntitySets isOwner = EntityDataModelApi.getAllEntitySets isOwner'
      <-> lodash.isNil isOwner = lodash.isNil isOwner'
          /\ (lodash.isNil isOwner = false -> truthy isOwner = truthy isOwner')).
Proof.
  unfold EntityDataModelApi.getAllEntitySets. split.
  - eexists. split; [reflexivity|]. cbn [api verb argument url].
    do 3 (split; [reflexivity|]).
    split; intros Hnil; rewrite Hnil; reflexivity.
  - destruct (lodash.isNil isOwner), (lodash.isNil isOwner'); cbn [app].
    + split; [done | done].
    + split; [discriminate | intros [[=] _]].
    + split; [discriminate | intros [[=] _]].
    + split.
      * intros [= Heq]. auto.
      * intros [_ Heq]. by rewrite Heq.
Qed.

End Wrappers_more.

(** ** Logger *)

Section Logger_facts.
Import Logger.

Lemma prefix_append (p s : string) : String.prefix p (p +:+ s) = true.
Proof.
  induction p as [|c p IH]; simpl; [by destruct s|].
  destruct (ascii_dec c c); [exact IH | done].
Qed.

Lemma prefix_refl (p : string) : String.prefix p p = true.
Proof.
  induction p as [|c p IH]; simpl; [done|].
  destruct (ascii_dec c c); [exact IH | done].
Qed.

Lemma toUpperCase_LOG_LEVELS (logLevel : LogLevel) :
  toUpperCase (LOG_LEVELS logLevel)
  = match logLevel with
    | TRACE => "TRACE" | DEBUG => "DEBUG" | INFO => "INFO"
    | WARN => "WARN" | ERROR => "ERROR"
    end.
Proof. by destruct logLevel. Qed.

Lemma not_TRACE (logLevel : LogLevel) :
  negb (String.eqb (LOG_LEVELS logLevel) (LOG_LEVELS TRACE)) = true <-> logLevel <> TRACE.
Proof. destruct logLevel; simpl; split; try done; intros Hneq; by destruct Hneq. Qed.

(** X18. [log] makes between one and three calls on the logger, all at the
    given level.  The first hands over one string that starts with the
    message prefix.  The second, made exactly when the message is no
    non-empty string, the level is not that of [trace], and the message is an
    Error or is not empty, hands over the message alone.  The last, made
    exactly when there are extra arguments, hands them over in one call. *)
Theorem Logger_log_calls (now : string) (this : Logger) (logLevel : LogLevel)
  (message : LogValue) (args : list LogValue) :
  exists line own,
    log now this logLevel message args
    = {| level := logLevel; arguments := [Plain (JsString line)] |}
      :: own ++ match args with
                | [] => []
                | _ :: _ => [{| level := logLevel; arguments := args |}]
                end
    /\ String.prefix (getMessagePrefix now (LOG_LEVELS logLevel) (name this)) line = true
    /\ (own = [] \/ own = [{| level := logLevel; arguments := [message] |}])
    /\ (own = [{| level := logLevel; arguments := [message] |}]
        <-> isNonEmptyString message = false /\ logLevel <> TRACE
            /\ (isError message = true \/ isEmpty message = false)).
Proof.
  unfold log. cbv zeta.
  set (prefix := getMessagePrefix now (LOG_LEVELS logLevel) (name this)).
  assert (Hargs : (if (0 <? length args)%nat
                   then [{| level := logLevel; arguments := args |}] else [])
                  = match args with
                    | [] => []
                    | _ :: _ => [{| level := logLevel; arguments := args |}]
                    end) by (by destruct args).
  rewrite Hargs. clear Hargs.
  pose proof (not_TRACE logLevel) as Htrace.
  destruct (isNonEmptyString message).
  - exists (prefix +:+ " - " +:+ text_of message), [].
    split; [reflexivity|]. split; [apply prefix_append|]. split; [by left|].
    split; [discriminate | intros [[=] _]].
  - destruct (negb (String.eqb (LOG_LEVELS logLevel) (LOG_LEVELS TRACE))) eqn:Et.
    + destruct (isError message) eqn:Ee; [|destruct (isEmpty message) eqn:Em];
        cbn [orb negb].
      * exists prefix, [{| level := logLevel; arguments := [message] |}].
        split; [reflexivity|]. split; [apply prefix_refl|]. split; [by right|].
        split; [|done]. intros _. split; [done|]. split; [by apply Htrace | by left].
      * exists prefix, []. split; [reflexivity|]. split; [apply prefix_refl|].
        split; [by left|]. split; [discriminate|].
        intros (_ & _ & [Hcontra|Hcontra]); discriminate Hcontra.
      * exists prefix, [{| level := logLevel; arguments := [message] |}].
        split; [reflexivity|]. split; [apply prefix_refl|]. split; [by right|].
        split; [|done]. intros _. split; [done|]. split; [by apply Htrace | by right].
    + exists prefix, []. split; [reflexivity|]. split; [apply prefix_refl|].
      split; [by left|]. split; [discriminate|].
      intros (_ & Hneq & _). apply Htrace in Hneq. discriminate Hneq.
Qed.

(** X19. A message that is no non-empty string, no Error, and empty for
    [_.isEmpty] (undefined, null, a number, a boolean, the empty string, array
    or object) is handed to the logger at no level; at the level of [trace],
    nothing but a non-empty string is. *)
Theorem Logger_log_drops_message (now : string) (this : Logger) (logLevel : LogLevel)
  (message : LogValue) (args : list LogValue) :
  isNonEmptyString message = false ->
  (isError message = false /\ isEmpty message = true) \/ logLevel = TRACE ->
  log now this logLevel message args
  = {| level := logLevel;
       arguments := [Plain (JsString (getMessagePrefix now (LOG_LEVELS logLevel)
                                        (name this)))] |}
    :: (if (0 <? length args)%nat
        then [{| level := logLevel; arguments := args |}] else []).
Proof.
  intros Hstring Hdrop. unfold log. cbv zeta. rewrite Hstring.
  destruct Hdrop as [[Herror Hempty]| ->].
  - rewrite Herror, Hempty. simpl.
    by destruct (negb (String.eqb (LOG_LEVELS logLevel) "trace")).
  - reflexivity.
Qed.

End Logger_facts.

(** ** The properties on the mock data *)

Section Sample_more.
#[local] Existing Instance Sample.uuid.
#[local] Existing Instance Sample.principals.
#[local] Existing Instance Sample.constants.
#[local] Existing Instance Sample.permissions.
#[local] Existing Instance Sample.store_imports.

Lemma RoleBuilder_constructor_then_build_witness :
  exists role,
    RoleBuilder.build Sample.MOCK_BUILDER = (Normal role, Sample.MOCK_BUILDER).
Proof.
  destruct (RoleBuilder_constructor_then_build
              (Role.toObject Sample.ROLE_MOCK) Sample.MOCK_BUILDER
              Sample_UUIDs_truthy eq_refl ROLE_MOCK_constructor)
    as (p & role & _ & _ & _ & _ & _ & _ & Hbuild).
  exists role. exact Hbuild.
Defined.

Lemma RoleBuilder_constructor_first_error_witness :
  RoleBuilder.constructor
    (JsObject [("description", JsNumber 1); ("id", JsNumber 2); ("title", JsNumber 3)])
  = Throw (Error RoleBuilder.invalid_description).
Proof.
  pose proof (RoleBuilder_constructor_first_error
                (JsObject [("description", JsNumber 1); ("id", JsNumber 2);
                           ("title", JsNumber 3)]) eq_refl) as Hfirst.
  cbv zeta in Hfirst. apply (proj1 Hfirst). reflexivity.
Defined.

Lemma RoleBuilder_calls_on_different_fields_commute_witness :
  RoleBuilder.after (RoleBuilder.SetTitle Sample.MOCK_TITLE)
    (RoleBuilder.after (RoleBuilder.SetId (JsNumber 42)) RoleBuilder.empty)
  = RoleBuilder.after (RoleBuilder.SetId (JsNumber 42))
      (RoleBuilder.after (RoleBuilder.SetTitle Sample.MOCK_TITLE) RoleBuilder.empty).
Proof.
  apply RoleBuilder_calls_on_different_fields_commute. simpl. discriminate.
Defined.

Lemma Role_toObject_class_marker_witness :
  get_prop (Role.toObject Sample.ROLE_MOCK) AT_CLASS = JsString Role.ROLE_CLASS_PACKAGE
  /\ has_prop (Role.toObject Sample.ROLE_MOCK) "aclKey" = true.
Proof.
  destruct (Role_toObject_class_marker Sample.ROLE_MOCK Sample_AT_CLASS_apart)
    as (Hclass & _ & _ & _ & HaclKey & Hid & _).
  split; [exact Hclass|]. rewrite HaclKey, Hid. reflexivity.
Defined.

Lemma AccessCheck_round_trip_witness :
  match AccessCheckBuilder.build
          (AccessCheckBuilder.after
             (AccessCheckBuilder.SetPermissions
                (JsArray [JsString "READ"; JsString "WRITE"; JsString "READ"]))
             AccessCheckBuilder.empty) with
  | (Normal accessCheck, _) =>
      AccessCheckBuilder.isValid (AccessCheckBuilder.as_object accessCheck) = true
  | _ => False
  end.
Proof.
  destruct (AccessCheckBuilder.build _) as [[accessCheck|e] this'] eqn:E.
  - refine (proj2 (AccessCheck_round_trip _ _ _ _ E)).
    apply AccessCheckBuilder.reachable_call, AccessCheckBuilder.reachable_new.
  - vm_compute in E. discriminate E.
Defined.

Lemma Role_constructor_returns_new_object_witness :
  match Sample.ROLE_MOCK_in_store with
  | (Normal this, h) =>
      match RoleInstance.constructor this h with
      | (Normal v, h') => h ⊆ h' /\ exists l, v = Store.VRef l /\ h !! l = None
      | _ => False
      end
  | _ => False
  end.
Proof.
  destruct Sample.ROLE_MOCK_in_store as [[this|e] h] eqn:E.
  2:{ vm_compute in E. discriminate E. }
  destruct (RoleInstance.constructor this h) as [[v|e] h'] eqn:E'.
  - destruct (Role_constructor_returns_new_object this v h h' E')
      as (Hsub & l & ps & Hv & Hl & _).
    split; [exact Hsub|]. exists l. split; [exact Hv | exact Hl].
  - vm_compute in E. injection E as <- <-. vm_compute in E'. discriminate E'.
Defined.

Lemma Role_toObject_returns_new_object_witness :
  match Sample.ROLE_MOCK_in_store with
  | (Normal this, h) =>
      match RoleInstance.toObject this h with
      | (Normal v, h') => exists l, v = Store.VRef l /\ h !! l = None
      | _ => False
      end
  | _ => False
  end.
Proof.
  destruct Sample.ROLE_MOCK_in_store as [[this|e] h] eqn:E.
  2:{ vm_compute in E. discriminate E. }
  destruct (RoleInstance.toObject this h) as [[v|e] h'] eqn:E'.
  - destruct (Role_toObject_returns_new_object this v h h' Sample_imports_preserve E')
      as (l & ps & Hv & Hl & _).
    exists l. split; [exact Hv | exact Hl].
  - vm_compute in E. injection E as <- <-. vm_compute in E'. discriminate E'.
Defined.

Lemma deletePropertyType_ignores_namespace_witness :
  EntityDataModelApi.deletePropertyType Sample.MOCK_ID
    (JsObject [("namespace", JsString "LOOM"); ("name", JsString "Data")])
  = EntityDataModelApi.deletePropertyType Sample.MOCK_ID
      (JsObject [("namespace", JsString "OTHER"); ("name", JsString "Data")]).
Proof.
  apply deletePropertyType_ignores_namespace; reflexivity.
Defined.

Lemma Logger_log_drops_message_witness :
  Logger.log "2017-01-01T00:00:00.000Z" {| Logger.name := "DataApi" |} Logger.INFO
    (Logger.Plain (JsArray [])) []
  = [{| Logger.level := Logger.INFO;
        Logger.arguments :=
          [Logger.Plain (JsString "[2017-01-01T00:00:00.000Z INFO DataApi]")] |}].
Proof.
  apply (Logger_log_drops_message "2017-01-01T00:00:00.000Z" {| Logger.name := "DataApi" |}
           Logger.INFO (Logger.Plain (JsArray [])) []).
  - reflexivity.
  - left. split; reflexivity.
Defined.

End Sample_more.
